(** * masa-oracle: peer discovery, DHT bootstrap and node-membership tracking

    A shallow embedding of the Go sources

      - [pkg/network] (the file defining [WithDht] and [monitorRoutingTable]),
      - [pkg] (the file defining [OracleNode], [Start], [handleDiscoveredPeers]
        and [handleStream]),
      - [cmd/masa-node/main.go] (the shutdown goroutine of [main]),

    together with the properties of the natural-language specification that
    concern them.

    Effects are explicit.  Every call that leaves the function under study
    (a libp2p call, a log line, a channel send, a Tracker operation) is
    recorded as an [Event] in a trace, in program order; the outcome of such a
    call is supplied by an environment record ([Network.Env],
    [Masa.NodeEnv]).  Goroutines
    started by a function keep a trace of their own, so that no interleaving
    is fixed by the model. *)

From Stdlib Require Import ZArith String List Bool Lia DecimalString.
From stdpp Require Import base option list strings gmap.
Import ListNotations.

#[local] Open Scope string_scope.
#[local] Open Scope Z_scope.
#[local] Open Scope list_scope.

(** ** Data shared by the three source files *)

(** [peer.ID] is a Go [string] type; two ids are compared with [==]. *)
Definition PeerID := string.
(** A multiaddress, in its textual form. *)
Definition Multiaddr := string.
Definition ProtocolID := string.
(** A Go [error] value, by its message ([err.Error()]). *)
Definition error := string.

(** [peer.AddrInfo]. *)
Record AddrInfo := mkAddrInfo { ID : PeerID; Addrs : list Multiaddr }.

(** [network.PeerEvent], as the composite literals of [WithDht] fill it. *)
Record PeerEvent := mkPeerEvent {
  PE_AddrInfo : AddrInfo;
  Action : string;
  Source : string
}.

(** A [network.Stream]: a handle, the connection it belongs to, and the
    protocol it speaks. *)
Record Stream := mkStream {
  stream_id : nat;
  stream_protocol : ProtocolID;
  RemotePeer : PeerID;
  RemoteMultiaddr : Multiaddr
}.

(** [time.Duration] counts nanoseconds. *)
Definition Second : Z := 1000000000.
Definition Minute : Z := 60 * Second.

(** [peer.ID.String()] is the base58 text of the id, a one-to-one rendering;
    ids are kept in that text form, so rendering changes nothing. *)
Definition ID_String (p : PeerID) : string := p.

(** [strings.HasPrefix(s, prefix)]. *)
Definition HasPrefix (s prefix : string) : bool := String.prefix prefix s.

(** ** [pkg/pubsub]: node data and the node tracker *)
Module Pubsub.

(** Modelled from the spec: the pubsub package that declares [NodeData] is not
    among the sources.  The fields are those of the spec's data model: the
    peer identity, the claimed chain address, the last observed network
    address, the staked and self-identified flags, the activity with a
    timestamp per transition, and the time of the last mutation. *)
Inductive ActivityKind := ActivityJoined | ActivityLeft.

Record NodeData := mkNodeData {
  PeerId : PeerID;
  EthAddress : string;
  Multiaddrs : Multiaddr;
  IsStaked : bool;
  SelfIdentified : bool;
  Activity : ActivityKind;
  LastJoined : Z;
  LastLeft : Z;
  LastUpdated : Z
}.

(** Modelled from the spec: [NewNodeData] is not among the sources.  A fresh
    record carries what the caller passes; both flags start false. *)
Definition NewNodeData (addr : Multiaddr) (peerId : PeerID) (publicKey : string)
    (activity : ActivityKind) (now : Z) : NodeData :=
  {| PeerId := peerId; EthAddress := publicKey; Multiaddrs := addr;
     IsStaked := false; SelfIdentified := false; Activity := activity;
     LastJoined := 0; LastLeft := 0; LastUpdated := now |}.

Definition withIsStaked (b : bool) (n : NodeData) : NodeData :=
  {| PeerId := PeerId n; EthAddress := EthAddress n; Multiaddrs := Multiaddrs n;
     IsStaked := b; SelfIdentified := SelfIdentified n; Activity := Activity n;
     LastJoined := LastJoined n; LastLeft := LastLeft n; LastUpdated := LastUpdated n |}.

Definition withSelfIdentified (b : bool) (n : NodeData) : NodeData :=
  {| PeerId := PeerId n; EthAddress := EthAddress n; Multiaddrs := Multiaddrs n;
     IsStaked := IsStaked n; SelfIdentified := b; Activity := Activity n;
     LastJoined := LastJoined n; LastLeft := LastLeft n; LastUpdated := LastUpdated n |}.

(** Modelled from the spec: the transitions [Joined] and [Left] set the
    activity, its timestamp and the time of the last mutation. *)
Definition Joined (now : Z) (n : NodeData) : NodeData :=
  {| PeerId := PeerId n; EthAddress := EthAddress n; Multiaddrs := Multiaddrs n;
     IsStaked := IsStaked n; SelfIdentified := SelfIdentified n;
     Activity := ActivityJoined;
     LastJoined := now; LastLeft := LastLeft n; LastUpdated := now |}.

Definition Left (now : Z) (n : NodeData) : NodeData :=
  {| PeerId := PeerId n; EthAddress := EthAddress n; Multiaddrs := Multiaddrs n;
     IsStaked := IsStaked n; SelfIdentified := SelfIdentified n;
     Activity := ActivityLeft;
     LastJoined := LastJoined n; LastLeft := now; LastUpdated := now |}.

(** Modelled from the spec: the node tracker is not among the sources.  It
    owns the mapping from the text of a peer id to that peer's record. *)
Abbreviation Tracker := (gmap string NodeData).

(** The merge of the spec's [addOrUpdate] into an existing record: address,
    activity and timestamps are replaced; a staked record is downgraded only
    when the caller allows it. *)
Definition merge (old cand : NodeData) (allowDowngrade : bool) : NodeData :=
  {| PeerId := PeerId old; EthAddress := EthAddress old;
     Multiaddrs := Multiaddrs cand;
     IsStaked := if IsStaked old && negb (IsStaked cand) && negb allowDowngrade
                 then true else IsStaked cand;
     SelfIdentified := SelfIdentified old;
     Activity := Activity cand;
     LastJoined := LastJoined cand; LastLeft := LastLeft cand;
     LastUpdated := LastUpdated cand |}.

Definition AddOrUpdateNodeData (cand : NodeData) (allowDowngrade : bool)
    (t : Tracker) : option error * Tracker :=
  if String.eqb (PeerId cand) "" then (Some "node data has no peer id", t)
  else
    let key := ID_String (PeerId cand) in
    match t !! key with
    | None => (None, <[key := cand]> t)
    | Some old => (None, <[key := merge old cand allowDowngrade]> t)
    end.

End Pubsub.

(** The three stream handlers [Start] can install. *)
Inductive Handler := H_handleStream | H_ReceiveNodeData | H_GossipNodeData.

(** Log levels of logrus. *)
Inductive Level := LDebug | LInfo | LWarn | LError.

(** Arguments of a log call, kept typed instead of rendered. *)
Inductive Arg :=
| AStr (s : string)
| APeer (p : PeerID)
| AInfo (pi : AddrInfo)
| AErr (e : error).

Inductive Event :=
(* logging *)
| Log (lvl : Level) (format : string) (args : list Arg)   (* logrus.<Level>[f] *)
| StdLog (msg : string)                                    (* log.Println *)
(* channels, contexts, wait groups, timers *)
| ChanSend (pe : PeerEvent)                                (* peerChan <- pe *)
| CtxWithTimeout (d : Z)
| CtxCancel
| WgAdd (n : nat)
| WgDone
| WgWait
| Sleep (d : Z)
| GoMonitorRoutingTable (interval : Z)
(* DHT and host *)
| Call_dhtNew (res : option error)
| Call_dhtBootstrap (res : option error)
| Call_AddrInfoFromP2pAddr (a : Multiaddr) (res : option AddrInfo * option error)
| Call_TryAddPeer (p : PeerID) (queryPeer isReplaceable : bool) (res : bool * option error)
| Call_Connect (pi : AddrInfo) (res : option error)
| Call_ClosePeer (p : PeerID) (res : option error)
| Call_NewStream (p : PeerID) (proto : ProtocolID) (res : Stream + error)
| Call_Write (s : Stream) (payload : string) (res : option error)
| Call_Close (s : Stream) (res : option error)
| SetStreamHandler (proto : ProtocolID) (h : Handler)
| NetworkNotifyTracker
| GoListenToNodeTracker
| GoHandleDiscoveredPeers
| GoDiscover
| Call_GetBootNodesMultiAddress (res : list Multiaddr + error)
| Call_WithMDNS (res : option error)
| Call_SubscribeToTopics (res : option error)
(* the node tracker *)
| Call_GetNodeData (key : string) (found : bool)
| Call_Joined (key : string)
| Call_Left (key : string)
| Call_HandleNodeData (nd : Pubsub.NodeData)
| Call_AddOrUpdateNodeData (nd : Pubsub.NodeData) (allowDowngrade : bool) (res : option error)
| Call_DumpNodeData
| ProcessExit.

(** A function either returns or panics. *)
Inductive Outcome (A : Type) :=
| Returned (a : A)
| Panicked (reason : string).
Arguments Returned {A} a.
Arguments Panicked {A} reason.

Definition is_Connect (e : Event) : bool :=
  match e with Call_Connect _ _ => true | _ => false end.

Definition is_Close (e : Event) : bool :=
  match e with Call_Close _ _ => true | _ => false end.

Definition is_SetStreamHandler (e : Event) : bool :=
  match e with SetStreamHandler _ _ => true | _ => false end.

Definition is_AddOrUpdate (e : Event) : bool :=
  match e with Call_AddOrUpdateNodeData _ _ _ => true | _ => false end.

Definition is_Left (e : Event) : bool :=
  match e with Call_Left _ => true | _ => false end.

(** The calls that act on the network: dialling, closing, opening streams. *)
Definition is_network_action (e : Event) : bool :=
  match e with
  | Call_Connect _ _ | Call_ClosePeer _ _ | Call_NewStream _ _ _
  | Call_Write _ _ _ | Call_Close _ _ => true
  | _ => false
  end.

(** ** State passing *)

Definition State (S A : Type) : Type := S -> A * S.

Definition sret {S A} (a : A) : State S A := fun s => (a, s).
Definition sbind {S A B} (m : State S A) (k : A -> State S B) : State S B :=
  fun s => let '(a, s') := m s in k a s'.

Declare Scope go_scope.
Delimit Scope go_scope with go.
Notation "x <~ c ;; k" := (sbind c (fun x => k))
  (at level 100, c at next level, right associativity) : go_scope.
Notation "c ;; k" := (sbind c (fun _ => k))
  (at level 100, right associativity) : go_scope.

(** ** [pkg/network]: the bootstrap connector *)
Module Network.

Definition maxRetries : nat := 3.
Definition retryDelay : Z := Second * 5.
Definition PeerAdded : string := "PeerAdded".
Definition PeerRemoved : string := "PeerRemoved".

(** What the libraries answer.  [AddrInfoFromP2pAddr] returns a pointer and
    an error, as in Go: the pointer is [None] when it is nil. *)
Record Env := mkEnv {
  host_ID : PeerID;
  dht_New : option error;
  dht_Bootstrap : option error;
  AddrInfoFromP2pAddr : Multiaddr -> option AddrInfo * option error;
  rt_TryAddPeer : PeerID -> bool * option error;
  host_Connect : AddrInfo -> option error;
  host_NewStream : PeerID -> ProtocolID -> Stream + error;
  stream_Write : Stream -> string -> option error;
  stream_Close : Stream -> option error;
  GetSelfNodeDataJson : bool -> string
}.

(** The routing table's two callbacks, as [WithDht] assigns them. *)
Definition onPeerAdded (p : PeerID) : list Event :=
  [ Log LInfo "Peer added to DHT: %s" [APeer p];
    ChanSend {| PE_AddrInfo := {| ID := p; Addrs := [] |};
                Action := PeerAdded;
                Source := "kdht" |} ].

Definition onPeerRemoved (p : PeerID) : list Event :=
  [ Log LInfo "Peer removed from DHT: %s" [APeer p];
    ChanSend {| PE_AddrInfo := {| ID := p; Addrs := [] |};
                Action := PeerRemoved;
                Source := "kdht" |} ].

(** The [*dht.IpfsDHT] that [WithDht] hands back: its protocol prefix and the
    callbacks installed on its routing table. *)
Record DHT := mkDHT {
  dht_prefix : ProtocolID;
  rt_PeerAdded : PeerID -> list Event;
  rt_PeerRemoved : PeerID -> list Event
}.

(** The PeerEvents a callback run puts on the channel. *)
Definition sent (t : list Event) : list PeerEvent :=
  omap (fun e => match e with ChanSend pe => Some pe | _ => None end) t.

(** *** The goroutine started for one bootstrap peer *)

(** Calls registered with [defer]. *)
Inductive Deferred :=
| DeferCancel
| DeferWgDone
| DeferCloseStream (s : Stream).

(** The frame of one goroutine: what it did so far, its pending deferred
    calls (most recent first) and how often it ran [peerConnectionCount++]. *)
Record Frame := mkFrame {
  f_trace : list Event;
  f_defers : list Deferred;
  f_count : nat
}.

Definition G (A : Type) : Type := State Frame A.

Definition emit (e : Event) : G unit :=
  fun f => (tt, {| f_trace := f_trace f ++ [e]; f_defers := f_defers f; f_count := f_count f |}).

Definition defer (d : Deferred) : G unit :=
  fun f => (tt, {| f_trace := f_trace f; f_defers := d :: f_defers f; f_count := f_count f |}).

Definition incrPeerConnectionCount : G unit :=
  fun f => (tt, {| f_trace := f_trace f; f_defers := f_defers f; f_count := S (f_count f) |}).

Section WithEnv.
Variable env : Env.

Definition connect (pi : AddrInfo) : G (option error) :=
  let r := host_Connect env pi in
  (emit (Call_Connect pi r) ;; sret r)%go.

Definition newStream (p : PeerID) (proto : ProtocolID) : G (Stream + error) :=
  let r := host_NewStream env p proto in
  (emit (Call_NewStream p proto r) ;; sret r)%go.

Definition write (s : Stream) (payload : string) : G (option error) :=
  let r := stream_Write env s payload in
  (emit (Call_Write s payload r) ;; sret r)%go.

(** What a deferred call does when it finally runs. *)
Definition runDeferred (d : Deferred) : list Event :=
  match d with
  | DeferCancel => [CtxCancel]
  | DeferWgDone => [WgDone]
  | DeferCloseStream s =>
      let err := stream_Close env s in
      Call_Close s err ::
      match err with
      | Some e => [Log LError "Error closing stream:" [AErr e]]
      | None => []
      end
  end.

(** The body of [go func() { ... }()], lines 94-126.  [return] is the end of
    a branch; the deferred calls run afterwards, in [runGoroutine]. *)
Definition attemptBody (protocolId : ProtocolID) (isStaked : bool)
    (peerInfo : AddrInfo) (counter : nat) : G unit :=
  (emit (CtxWithTimeout (30 * Second)) ;;
   defer DeferCancel ;;
   defer DeferWgDone ;;
   err <~ connect peerInfo ;;
   match err with
   | Some err =>
       emit (Log LError "Failed to connect to bootstrap peer %s: %v"
               [APeer (ID peerInfo); AErr err]) ;;
       let counter := S counter in
       if (maxRetries <=? counter)%nat then sret tt
       else emit (Sleep retryDelay)
   | None =>
       emit (Log LInfo "Connection established with node:" [AInfo peerInfo]) ;;
       r <~ newStream (ID peerInfo) protocolId ;;
       match r with
       | inr err => emit (Log LError "Error opening stream:" [AErr err])
       | inl stream =>
           incrPeerConnectionCount ;;
           defer (DeferCloseStream stream) ;;
           err <~ write stream (GetSelfNodeDataJson env isStaked) ;;
           match err with
           | Some err => emit (Log LError "Error writing to stream:" [AErr err])
           | None => sret tt
           end
       end
   end)%go.

(** A finished goroutine: everything it did, deferred calls included, and
    its contribution to [peerConnectionCount]. *)
Record Thread := mkThread { th_trace : list Event; th_count : nat }.

Definition runGoroutine (body : G unit) : Thread :=
  let f := snd (body {| f_trace := []; f_defers := []; f_count := 0 |}) in
  {| th_trace := f_trace f ++ concat (map runDeferred (f_defers f));
     th_count := f_count f |}.

Definition attempt (protocolId : ProtocolID) (isStaked : bool)
    (peerInfo : AddrInfo) (counter : nat) : Thread :=
  runGoroutine (attemptBody protocolId isStaked peerInfo counter).

(** *** The connector itself *)

(** The state of the calling goroutine: its own trace and the goroutines it
    has started, oldest first. *)
Record MainState := mkMainState {
  m_trace : list Event;
  m_threads : list Thread
}.

Definition M (A : Type) : Type := MainState -> Outcome A * MainState.

Definition mret {A} (a : A) : M A := fun st => (Returned a, st).
Definition mbindM {A B} (m : M A) (k : A -> M B) : M B :=
  fun st =>
    match m st with
    | (Returned a, st') => k a st'
    | (Panicked r, st') => (Panicked r, st')
    end.

Declare Scope main_scope.
Delimit Scope main_scope with main.
Notation "x <~ c ;; k" := (mbindM c (fun x => k))
  (at level 100, c at next level, right associativity) : main_scope.
Notation "c ;; k" := (mbindM c (fun _ => k))
  (at level 100, right associativity) : main_scope.

Definition emitM (e : Event) : M unit :=
  fun st => (Returned tt, {| m_trace := m_trace st ++ [e]; m_threads := m_threads st |}).

Definition panic {A} (reason : string) : M A := fun st => (Panicked reason, st).

(** [go f()]: the new goroutine runs on its own. *)
Definition go (t : Thread) : M unit :=
  fun st => (Returned tt, {| m_trace := m_trace st; m_threads := m_threads st ++ [t] |}).

(** Reading a field through a pointer: a nil pointer panics. *)
Definition deref {A} (p : option A) : M A :=
  match p with
  | Some a => mret a
  | None => panic "invalid memory address or nil pointer dereference"
  end.

(** [peerConnectionCount] after [wg.Wait()]: the increments of all the
    goroutines (each runs [peerConnectionCount++] at most once). *)
Definition peerConnectionCount : M nat :=
  fun st => (Returned (sum_list (map th_count (m_threads st))), st).

(** One turn of [for _, peerAddr := range bootstrapNodes], lines 73-127.
    [TryAddPeer] stands for the answer of the routing table alone: the
    callbacks the routing table runs while it adds or evicts a peer, with
    their log line and their send on [peerChan], are not among the caller's
    events here, nor is a call that blocks in them. *)
Definition bootstrapOne (protocolId : ProtocolID) (isStaked : bool)
    (peerAddr : Multiaddr) : M unit :=
  (let r := AddrInfoFromP2pAddr env peerAddr in
   emitM (Call_AddrInfoFromP2pAddr peerAddr r) ;;
   let '(peerInfo, err) := r in
   match err with
   | Some err => emitM (Log LError "kdht: %s" [AErr err])
   | None => mret tt
   end ;;
   info <~ deref peerInfo ;;
   if String.eqb (ID info) (host_ID env) then
     emitM (Log LInfo "DHT Skipping connect to self" [])
   else
     let a := rt_TryAddPeer env (ID info) in
     emitM (Call_TryAddPeer (ID info) true false a) ;;
     let '(added, err) := a in
     match err with
     | Some err =>
         emitM (Log LWarn "Failed to add bootstrap peer %s to DHT: %v" [APeer (ID info); AErr err])
     | None =>
         if negb added then
           emitM (Log LWarn "Bootstrap peer %s was not added to DHT" [APeer (ID info)])
         else
           emitM (Log LInfo "Successfully added bootstrap peer %s to DHT" [APeer (ID info)])
     end ;;
     emitM (WgAdd 1) ;;
     let counter := 0%nat in
     go (attempt protocolId isStaked info counter))%main.

Fixpoint bootstrapAll (protocolId : ProtocolID) (isStaked : bool)
    (bootstrapNodes : list Multiaddr) : M unit :=
  match bootstrapNodes with
  | [] => mret tt
  | peerAddr :: rest =>
      (bootstrapOne protocolId isStaked peerAddr ;;
       bootstrapAll protocolId isStaked rest)%main
  end.

(** [WithDht], lines 32-133.  The result is Go's pair of a
    [*dht.IpfsDHT] and an [error]. *)
Definition WithDht (bootstrapNodes : list Multiaddr) (protocolId prefix : ProtocolID)
    (isStaked : bool) : M (option DHT * option error) :=
  (let err := dht_New env in
   emitM (Call_dhtNew err) ;;
   match err with
   | Some err => mret (None, Some err)
   | None =>
       emitM (GoMonitorRoutingTable Minute) ;;
       let kademliaDHT :=
         {| dht_prefix := prefix;
            rt_PeerAdded := onPeerAdded;
            rt_PeerRemoved := onPeerRemoved |} in
       let err := dht_Bootstrap env in
       emitM (Call_dhtBootstrap err) ;;
       match err with
       | Some err => mret (None, Some err)
       | None =>
           bootstrapAll protocolId isStaked bootstrapNodes ;;
           emitM WgWait ;;
           n <~ peerConnectionCount ;;
           (if (0 <? length bootstrapNodes)%nat && (n =? 0)%nat then
              emitM (StdLog "Unable to connect to a boot node at this time. Waiting...")
            else mret tt) ;;
           mret (Some kademliaDHT, None)
       end
   end)%main.

Definition start : MainState := {| m_trace := []; m_threads := [] |}.

(** Whether an address resolves to a peer, and the peers a bootstrap list
    makes [WithDht] dial: those of the addresses that resolve to a peer other
    than the host itself. *)
Definition resolves (a : Multiaddr) : bool :=
  match fst (AddrInfoFromP2pAddr env a) with Some _ => true | None => false end.

Definition dialled (bootstrapNodes : list Multiaddr) : list AddrInfo :=
  omap (fun a =>
          match fst (AddrInfoFromP2pAddr env a) with
          | Some info => if String.eqb (ID info) (host_ID env) then None else Some info
          | None => None
          end) bootstrapNodes.

End WithEnv.

(** The events the loop over the bootstrap list leaves in the caller's own
    trace. *)
Definition is_loop_event (e : Event) : bool :=
  match e with
  | Call_AddrInfoFromP2pAddr _ _ | Log _ _ _ | Call_TryAddPeer _ _ _ _ | WgAdd _ => true
  | _ => false
  end.

Definition soft_warning : Event :=
  StdLog "Unable to connect to a boot node at this time. Waiting...".

(** The events [WithDht] leaves in the caller's own trace. *)
Definition is_connector_event (e : Event) : bool :=
  match e with
  | Call_dhtNew _ | GoMonitorRoutingTable _ | Call_dhtBootstrap _ | WgWait | StdLog _ => true
  | _ => is_loop_event e
  end.

End Network.

(** ** [pkg]: the oracle node *)
Module Masa.

(** The fields of [OracleNode] that the functions below read or write.  The
    host is part of the environment; the node tracker is part of the
    [World]. *)
Record OracleNode := mkOracleNode {
  Protocol : ProtocolID;
  priorityAddrs : option Multiaddr;
  multiAddrs : list Multiaddr;
  DHT : option Network.DHT;
  Signature : string;
  IsStaked : bool;
  StartTime : Z
}.

(** What lies outside the three functions: the host and the DHT library
    ([net]), the configuration, and the helpers of this repository that are
    not among the sources.  The host's answers may depend on everything that
    happened before, so they take the trace so far. *)
Record NodeEnv := mkNodeEnv {
  net : Network.Env;
  GetBootNodesMultiAddress : list Multiaddr + error;
  HasBootnodes : bool;
  ProtocolWithVersion : string -> ProtocolID;
  NodeDataSyncProtocol : string;
  NodeGossipTopic : string;
  MasaPrefix : ProtocolID;
  GetPriorityAddress : list Multiaddr -> Multiaddr;
  KeyManager_EthAddress : string;
  WithMDNS : option error;
  SubscribeToTopics : option error;
  time_Now : Z;
  host_Connect : list Event -> AddrInfo -> option error;
  network_ClosePeer : list Event -> PeerID -> option error;
  handleStreamData : Stream -> Pubsub.Tracker -> PeerID * Pubsub.NodeData * option error
}.

Record World := mkWorld {
  w_trace : list Event;
  w_node : OracleNode;
  w_tracker : Pubsub.Tracker;
  w_handlers : gmap ProtocolID Handler;
  w_threads : list Network.Thread;
  w_dump : option Pubsub.Tracker;
  w_cancelled : bool
}.

Definition W (A : Type) : Type := State World A.

Definition emitW (e : Event) : W unit :=
  fun w => (tt, {| w_trace := w_trace w ++ [e]; w_node := w_node w;
                   w_tracker := w_tracker w; w_handlers := w_handlers w;
                   w_threads := w_threads w; w_dump := w_dump w;
                   w_cancelled := w_cancelled w |}).

Definition emitAll (es : list Event) : W unit :=
  fun w => (tt, {| w_trace := w_trace w ++ es; w_node := w_node w;
                   w_tracker := w_tracker w; w_handlers := w_handlers w;
                   w_threads := w_threads w; w_dump := w_dump w;
                   w_cancelled := w_cancelled w |}).

Definition getNode : W OracleNode := fun w => (w_node w, w).
Definition getTrace : W (list Event) := fun w => (w_trace w, w).
Definition getTracker : W Pubsub.Tracker := fun w => (w_tracker w, w).

Definition setNode (f : OracleNode -> OracleNode) : W unit :=
  fun w => (tt, {| w_trace := w_trace w; w_node := f (w_node w);
                   w_tracker := w_tracker w; w_handlers := w_handlers w;
                   w_threads := w_threads w; w_dump := w_dump w;
                   w_cancelled := w_cancelled w |}).

Definition setTracker (f : Pubsub.Tracker -> Pubsub.Tracker) : W unit :=
  fun w => (tt, {| w_trace := w_trace w; w_node := w_node w;
                   w_tracker := f (w_tracker w); w_handlers := w_handlers w;
                   w_threads := w_threads w; w_dump := w_dump w;
                   w_cancelled := w_cancelled w |}).

Definition addThreads (ts : list Network.Thread) : W unit :=
  fun w => (tt, {| w_trace := w_trace w; w_node := w_node w;
                   w_tracker := w_tracker w; w_handlers := w_handlers w;
                   w_threads := w_threads w ++ ts; w_dump := w_dump w;
                   w_cancelled := w_cancelled w |}).

(** [node.Host.SetStreamHandler(pid, h)]: the host keeps one handler per
    protocol id. *)
Definition setStreamHandler (pid : ProtocolID) (h : Handler) : W unit :=
  fun w => (tt, {| w_trace := w_trace w ++ [SetStreamHandler pid h]; w_node := w_node w;
                   w_tracker := w_tracker w; w_handlers := <[pid := h]> (w_handlers w);
                   w_threads := w_threads w; w_dump := w_dump w;
                   w_cancelled := w_cancelled w |}).

(** The handler table after a registration, and what it means for a step
    [m], started in [w], to make exactly the registrations [l]: they are the
    [SetStreamHandler] calls among the events it adds, and the host's table
    is the old one with [l] installed in order. *)
Definition install (h : gmap ProtocolID Handler) (e : Event) : gmap ProtocolID Handler :=
  match e with
  | SetStreamHandler pid x => <[pid := x]> h
  | _ => h
  end.

Definition registers {A} (m : W A) (w : World) (l : list Event) : Prop :=
  exists new,
    w_trace (snd (m w)) = w_trace w ++ new
    /\ List.filter is_SetStreamHandler new = l
    /\ w_handlers (snd (m w)) = foldl install (w_handlers w) l.

Definition quiet {A} (m : W A) : Prop := forall w, registers m w [].

(** *** The node tracker, as the node uses it *)

(** [NodeTracker.GetNodeData(key)] returns a pointer to the stored record, or
    nil.  The pointer is the key of the record: what is done through it is
    done to the Tracker's own record. *)
Definition GetNodeData (key : string) : W (option string) :=
  (t <~ getTracker ;;
   match t !! key with
   | Some _ => emitW (Call_GetNodeData key true) ;; sret (Some key)
   | None => emitW (Call_GetNodeData key false) ;; sret None
   end)%go.

Section WithNodeEnv.
Variable env : NodeEnv.

(** [nodeData.Joined()] and [nodeData.Left()] through such a pointer. *)
Definition JoinedAt (ptr : string) : W unit :=
  (emitW (Call_Joined ptr) ;; setTracker (alter (Pubsub.Joined (time_Now env)) ptr))%go.

Definition LeftAt (ptr : string) : W unit :=
  (emitW (Call_Left ptr) ;; setTracker (alter (Pubsub.Left (time_Now env)) ptr))%go.

Definition AddOrUpdateNodeData (nd : Pubsub.NodeData) (allowDowngrade : bool) : W (option error) :=
  (t <~ getTracker ;;
   let '(err, t') := Pubsub.AddOrUpdateNodeData nd allowDowngrade t in
   emitW (Call_AddOrUpdateNodeData nd allowDowngrade err) ;;
   setTracker (fun _ => t') ;;
   sret err)%go.

(** Modelled from the spec: [HandleNodeData] is not among the sources; the
    spec routes every mutation of the Tracker through its one merge
    operation, without downgrade. *)
Definition HandleNodeData (nd : Pubsub.NodeData) : W unit :=
  (t <~ getTracker ;;
   emitW (Call_HandleNodeData nd) ;;
   setTracker (fun _ => snd (Pubsub.AddOrUpdateNodeData nd false t)))%go.

(** Modelled from the spec: [DumpNodeData] is not among the sources; it
    persists the full mapping as it is when called. *)
Definition DumpNodeData : W unit :=
  fun w => (tt, {| w_trace := w_trace w ++ [Call_DumpNodeData]; w_node := w_node w;
                   w_tracker := w_tracker w; w_handlers := w_handlers w;
                   w_threads := w_threads w; w_dump := Some (w_tracker w);
                   w_cancelled := w_cancelled w |}).

(** *** [GetMultiAddrs], lines 50-56 *)
Definition GetMultiAddrs : W Multiaddr :=
  (node <~ getNode ;;
   match priorityAddrs node with
   | Some a => sret a
   | None =>
       let pAddr := GetPriorityAddress env (multiAddrs node) in
       setNode (fun n => {| Protocol := Protocol n; priorityAddrs := Some pAddr;
                            multiAddrs := multiAddrs n; DHT := DHT n;
                            Signature := Signature n; IsStaked := IsStaked n;
                            StartTime := StartTime n |}) ;;
       sret pAddr
   end)%go.

(** *** [handleDiscoveredPeers], lines 169-190 *)

(** What one [select] picks: an event from [node.PeerChan], or the closing of
    [node.Context.Done()]. *)
Inductive Selected :=
| RecvPeer (peer : PeerEvent)
| CtxDone.

(** How a run over a finite schedule ends: the function returned, or it is
    back in [select], waiting. *)
Inductive LoopState := Exited | Waiting.

Definition connect (pi : AddrInfo) : W (option error) :=
  (t <~ getTrace ;;
   let r := host_Connect env t pi in
   emitW (Call_Connect pi r) ;; sret r)%go.

Definition closePeer (p : PeerID) : W (option error) :=
  (t <~ getTrace ;;
   let r := network_ClosePeer env t p in
   emitW (Call_ClosePeer p r) ;; sret r)%go.

(** The body of [case peer := <-node.PeerChan].  It holds the calls the
    dispatcher itself makes; what the network tells its subscribers about a
    connection is not part of it. *)
Definition onPeerEvent (peer : PeerEvent) : W unit :=
  (emitW (Log LDebug "Peer Event for: %s, Action: %s"
            [AStr (ID_String (ID (PE_AddrInfo peer))); AStr (Action peer)]) ;;
   if String.eqb (Action peer) Network.PeerAdded then
     err <~ connect (PE_AddrInfo peer) ;;
     match err with
     | Some err =>
         emitW (Log LError "Connection failed for peer: %s %v"
                  [AStr (ID_String (ID (PE_AddrInfo peer))); AErr err]) ;;
         err <~ closePeer (ID (PE_AddrInfo peer)) ;;
         match err with
         | Some err => emitW (Log LError "%v" [AErr err])
         | None => sret tt
         end
     | None => sret tt
     end
   else sret tt)%go.

Fixpoint handleDiscoveredPeers (schedule : list Selected) : W LoopState :=
  match schedule with
  | [] => sret Waiting
  | RecvPeer peer :: rest => (onPeerEvent peer ;; handleDiscoveredPeers rest)%go
  | CtxDone :: _ => sret Exited
  end.

(** *** [handleStream], lines 192-215 *)
Definition handleStream (stream : Stream) : W unit :=
  (t <~ getTracker ;;
   let '(remotePeer, nodeData, err) := handleStreamData env stream t in
   match err with
   | Some err =>
       if HasPrefix err "un-staked" then sret tt
       else emitW (Log LError "Failed to read stream: %v" [AErr err])
   | None =>
       if negb (String.eqb (ID_String remotePeer) (ID_String (Pubsub.PeerId nodeData))) then
         emitW (Log LWarn "Received data from unexpected peer %s" [APeer remotePeer])
       else
         let multiAddr := RemoteMultiaddr stream in
         let newNodeData :=
           Pubsub.NewNodeData multiAddr remotePeer (Pubsub.EthAddress nodeData)
             Pubsub.ActivityJoined (time_Now env) in
         let newNodeData := Pubsub.withIsStaked (Pubsub.IsStaked nodeData) newNodeData in
         err <~ AddOrUpdateNodeData newNodeData false ;;
         match err with
         | Some err => emitW (Log LError "%v" [AErr err])
         | None =>
             emitW (Log LInfo "handleStream -> Received data from:"
                      [AStr (ID_String remotePeer)])
         end
   end)%go.

(** *** [Start], lines 119-167 *)

(** The call of [WithDht]: its trace joins the node's, its goroutines join
    the node's goroutines. *)
Definition withDht (bootNodeAddrs : list Multiaddr) (protocolId prefix : ProtocolID)
    (isStaked : bool) : W (Outcome (option Network.DHT * option error)) :=
  (let '(r, st) :=
     Network.WithDht (net env) bootNodeAddrs protocolId prefix isStaked Network.start in
   emitAll (Network.m_trace st) ;;
   addThreads (Network.m_threads st) ;;
   sret r)%go.

(** [Start] as the calls it makes itself.  Subscribing the node tracker to
    the network ([Notify], line 133) is an event: what the notifications
    later do to the Tracker happens outside [Start] and is not part of it. *)
Definition Start : W (Outcome (option error)) :=
  (addr <~ GetMultiAddrs ;;
   emitW (Log LInfo "Starting node with ID: %s" [AStr addr]) ;;
   let r := GetBootNodesMultiAddress env in
   emitW (Call_GetBootNodesMultiAddress r) ;;
   match r with
   | inr err => sret (Returned (Some err))
   | inl bootNodeAddrs =>
       node <~ getNode ;;
       setStreamHandler (Protocol node) H_handleStream ;;
       setStreamHandler (ProtocolWithVersion env (NodeDataSyncProtocol env)) H_ReceiveNodeData ;;
       (if IsStaked node then
          setStreamHandler (ProtocolWithVersion env (NodeGossipTopic env)) H_GossipNodeData
        else sret tt) ;;
       emitW NetworkNotifyTracker ;;
       emitW GoListenToNodeTracker ;;
       emitW GoHandleDiscoveredPeers ;;
       r <~ withDht bootNodeAddrs (Protocol node) (MasaPrefix env) (IsStaked node) ;;
       match r with
       | Panicked reason => sret (Panicked reason)
       | Returned (dht, err) =>
           setNode (fun n => {| Protocol := Protocol n; priorityAddrs := priorityAddrs n;
                                multiAddrs := multiAddrs n; DHT := dht;
                                Signature := Signature n; IsStaked := IsStaked n;
                                StartTime := StartTime n |}) ;;
           match err with
           | Some err => sret (Returned (Some err))
           | None =>
               let err := WithMDNS env in
               emitW (Call_WithMDNS err) ;;
               match err with
               | Some err => sret (Returned (Some err))
               | None =>
                   emitW GoDiscover ;;
                   (if HasBootnodes env then
                      let self := ID_String (Network.host_ID (net env)) in
                      nodeData <~ GetNodeData self ;;
                      match nodeData with
                      | Some ptr =>
                          JoinedAt ptr ;;
                          t <~ getTracker ;;
                          match t !! ptr with
                          | Some nd => HandleNodeData nd
                          | None => sret tt
                          end
                      | None =>
                          let publicKeyHex := KeyManager_EthAddress env in
                          addr <~ GetMultiAddrs ;;
                          let nodeData :=
                            Pubsub.NewNodeData addr (Network.host_ID (net env)) publicKeyHex
                              Pubsub.ActivityJoined (time_Now env) in
                          let nodeData := Pubsub.withIsStaked (IsStaked node) nodeData in
                          let nodeData := Pubsub.withSelfIdentified true nodeData in
                          let nodeData := Pubsub.Joined (time_Now env) nodeData in
                          emitW (Call_Joined self) ;;
                          HandleNodeData nodeData
                      end
                    else sret tt) ;;
                   let err := SubscribeToTopics env in
                   emitW (Call_SubscribeToTopics err) ;;
                   match err with
                   | Some err => sret (Returned (Some err))
                   | None =>
                       setNode (fun n => {| Protocol := Protocol n;
                                            priorityAddrs := priorityAddrs n;
                                            multiAddrs := multiAddrs n; DHT := DHT n;
                                            Signature := Signature n; IsStaked := IsStaked n;
                                            StartTime := time_Now env |}) ;;
                       sret (Returned None)
                   end
               end
           end
       end
   end)%go.

End WithNodeEnv.

End Masa.

(** ** [cmd/masa-node/main.go]: shutdown *)
Module Main.
Import Masa.

Section WithNodeEnv.
Variable env : NodeEnv.

Definition cancel : W unit :=
  fun w => (tt, {| w_trace := w_trace w ++ [CtxCancel]; w_node := w_node w;
                   w_tracker := w_tracker w; w_handlers := w_handlers w;
                   w_threads := w_threads w; w_dump := w_dump w;
                   w_cancelled := true |}).

(** The goroutine of lines 75-83, once a signal has arrived on [c]. *)
Definition onSignal : W unit :=
  (nodeData <~ GetNodeData (ID_String (Network.host_ID (net env))) ;;
   match nodeData with
   | Some ptr => LeftAt env ptr
   | None => sret tt
   end ;;
   DumpNodeData ;;
   cancel)%go.

(** The last line of [main], [<-ctx.Done()]: the function returns, and the
    process exits, once the context is cancelled. *)
Definition awaitDone : W LoopState :=
  fun w =>
    if w_cancelled w then
      (Exited, snd (emitW ProcessExit w))
    else (Waiting, w).

(** A signal arrives while [main] waits: the goroutine runs, then [main]
    gets to return. *)
Definition shutdown : W LoopState := (onSignal ;; awaitDone)%go.

End WithNodeEnv.

End Main.

(** ** Concrete inputs *)
Module Sample.

Definition addrA : Multiaddr := "/ip4/10.0.0.1/tcp/4001/p2p/QmA".
Definition addrB : Multiaddr := "/ip4/10.0.0.2/tcp/4001/p2p/QmB".
(** A valid multiaddress that names no peer: it has no [/p2p] part. *)
Definition addrNoPeer : Multiaddr := "/ip4/10.0.0.3/tcp/4001".
Definition addrSelf : Multiaddr := "/ip4/127.0.0.1/tcp/4001/p2p/QmSelf".

Definition infoA : AddrInfo := {| ID := "QmA"; Addrs := ["/ip4/10.0.0.1/tcp/4001"] |}.
Definition infoB : AddrInfo := {| ID := "QmB"; Addrs := ["/ip4/10.0.0.2/tcp/4001"] |}.
Definition infoSelf : AddrInfo := {| ID := "QmSelf"; Addrs := ["/ip4/127.0.0.1/tcp/4001"] |}.

Definition streamB : Stream :=
  {| stream_id := 1; stream_protocol := "/masa/oracle_protocol/v0.0.1";
     RemotePeer := "QmB"; RemoteMultiaddr := "/ip4/10.0.0.2/tcp/4001" |}.

Definition resolve (a : Multiaddr) : option AddrInfo * option error :=
  if String.eqb a addrA then (Some infoA, None)
  else if String.eqb a addrB then (Some infoB, None)
  else if String.eqb a addrSelf then (Some infoSelf, None)
  else (None, Some "invalid p2p multiaddr").

(** Peer A cannot be reached; peer B accepts the connection and a stream, and
    the write on that stream succeeds or fails as [writeErr] says. *)
Definition netEnv (writeErr : option error) : Network.Env :=
  {| Network.host_ID := "QmSelf";
     Network.dht_New := None;
     Network.dht_Bootstrap := None;
     Network.AddrInfoFromP2pAddr := resolve;
     Network.rt_TryAddPeer := fun _ => (true, None);
     Network.host_Connect := fun pi =>
       if String.eqb (ID pi) "QmB" then None else Some "dial backoff";
     Network.host_NewStream := fun _ _ => inl streamB;
     Network.stream_Write := fun _ _ => writeErr;
     Network.stream_Close := fun _ => None;
     Network.GetSelfNodeDataJson := fun staked =>
       if staked then "{staked}" else "{unstaked}" |}.

Definition proto : ProtocolID := "/masa/oracle_protocol/v0.0.1".
Definition prefix : ProtocolID := "/masa".

(** Inbound streams: one from peer B carrying B's own record, one from
    another peer carrying a record that claims to be B's, one that the reader
    turns down as un-staked, and one that breaks off. *)
Definition streamEve : Stream :=
  {| stream_id := 2; stream_protocol := proto;
     RemotePeer := "QmEve"; RemoteMultiaddr := "/ip4/10.0.0.66/tcp/4001" |}.
Definition streamUnstaked : Stream :=
  {| stream_id := 3; stream_protocol := proto;
     RemotePeer := "QmC"; RemoteMultiaddr := "/ip4/10.0.0.4/tcp/4001" |}.
Definition streamBroken : Stream :=
  {| stream_id := 4; stream_protocol := proto;
     RemotePeer := "QmD"; RemoteMultiaddr := "/ip4/10.0.0.5/tcp/4001" |}.

Definition payloadB : Pubsub.NodeData :=
  Pubsub.withIsStaked true
    (Pubsub.NewNodeData "/ip4/10.0.0.2/tcp/4001" "QmB" "0xB0b" Pubsub.ActivityJoined 1699999999).

Definition noData : Pubsub.NodeData :=
  Pubsub.NewNodeData "" "" "" Pubsub.ActivityJoined 0.

Definition readStream (s : Stream) (_ : Pubsub.Tracker)
    : PeerID * Pubsub.NodeData * option error :=
  match stream_id s with
  | 1%nat | 2%nat => (RemotePeer s, payloadB, None)
  | 3%nat => (RemotePeer s, noData, Some "un-staked node is ignored: QmC")
  | _ => (RemotePeer s, noData, Some "stream reset")
  end.

Definition nodeEnv (boot : list Multiaddr + error) : Masa.NodeEnv :=
  {| Masa.net := netEnv None;
     Masa.GetBootNodesMultiAddress := boot;
     Masa.HasBootnodes := true;
     Masa.ProtocolWithVersion := fun name => String.append "/masa/" (String.append name "/v0.0.1");
     Masa.NodeDataSyncProtocol := "nodeDataSync";
     Masa.NodeGossipTopic := "gossip";
     Masa.MasaPrefix := prefix;
     Masa.GetPriorityAddress := fun l => List.hd "" l;
     Masa.KeyManager_EthAddress := "0x5e1f";
     Masa.WithMDNS := None;
     Masa.SubscribeToTopics := None;
     Masa.time_Now := 1700000000;
     Masa.host_Connect := fun _ pi =>
       if String.eqb (ID pi) "QmB" then None else Some "dial backoff";
     Masa.network_ClosePeer := fun _ _ => None;
     Masa.handleStreamData := readStream |}.

Definition node0 (staked : bool) : Masa.OracleNode :=
  {| Masa.Protocol := proto; Masa.priorityAddrs := None;
     Masa.multiAddrs := ["/ip4/127.0.0.1/tcp/4001/p2p/QmSelf"];
     Masa.DHT := None; Masa.Signature := ""; Masa.IsStaked := staked;
     Masa.StartTime := 0 |}.

Definition world0 (staked : bool) (t : Pubsub.Tracker) : Masa.World :=
  {| Masa.w_trace := []; Masa.w_node := node0 staked; Masa.w_tracker := t;
     Masa.w_handlers := ∅; Masa.w_threads := []; Masa.w_dump := None;
     Masa.w_cancelled := false |}.

(** The local node's own record, as [Start] creates it. *)
Definition selfData : Pubsub.NodeData :=
  Pubsub.Joined 1600000000
    (Pubsub.withSelfIdentified true
       (Pubsub.withIsStaked true
          (Pubsub.NewNodeData "/ip4/127.0.0.1/tcp/4001/p2p/QmSelf" "QmSelf" "0x5e1f"
             Pubsub.ActivityJoined 1600000000))).

Definition peerAddedB : PeerEvent :=
  {| PE_AddrInfo := infoB; Action := "PeerAdded"; Source := "kdht" |}.
Definition peerAddedA : PeerEvent :=
  {| PE_AddrInfo := infoA; Action := "PeerAdded"; Source := "mdns" |}.
Definition peerRemovedA : PeerEvent :=
  {| PE_AddrInfo := {| ID := "QmA"; Addrs := [] |}; Action := "PeerRemoved"; Source := "kdht" |}.

End Sample.

(** ** Further observations on traces *)
Module Observe.

Definition is_WgAdd (e : Event) : bool :=
  match e with WgAdd _ => true | _ => false end.

Definition is_WgDone (e : Event) : bool :=
  match e with WgDone => true | _ => false end.

Definition is_CtxCancel (e : Event) : bool :=
  match e with CtxCancel => true | _ => false end.

Definition is_CtxWithTimeout (e : Event) : bool :=
  match e with CtxWithTimeout _ => true | _ => false end.

Definition is_resolution (e : Event) : bool :=
  match e with Call_AddrInfoFromP2pAddr _ _ => true | _ => false end.

Definition is_stream_opened (e : Event) : bool :=
  match e with Call_NewStream _ _ (inl _) => true | _ => false end.

(** The events of a goroutine that belong to its frame: the timeout context
    and the wait group. *)
Definition is_frame_event (e : Event) : bool :=
  match e with CtxWithTimeout _ | WgDone | CtxCancel => true | _ => false end.

(** The addresses a trace shows to have been resolved, in order. *)
Definition resolved_addrs (t : list Event) : list Multiaddr :=
  omap (fun e => match e with Call_AddrInfoFromP2pAddr a _ => Some a | _ => None end) t.

(** All that the goroutines of a run did. *)
Definition thread_events (ts : list Network.Thread) : list Event :=
  concat (map Network.th_trace ts).

(** A call that dials peer [p] or opens a stream to it. *)
Definition reaches (p : PeerID) (e : Event) : bool :=
  match e with
  | Call_Connect pi _ => String.eqb (ID pi) p
  | Call_NewStream q _ _ => String.eqb q p
  | _ => false
  end.

(** The calls on the node tracker. *)
Definition is_tracker_call (e : Event) : bool :=
  match e with
  | Call_GetNodeData _ _ | Call_Joined _ | Call_Left _ | Call_HandleNodeData _
  | Call_AddOrUpdateNodeData _ _ _ | Call_DumpNodeData => true
  | _ => false
  end.

(** The same environment with another answer of the routing table to
    [TryAddPeer]. *)
Definition withTryAddPeer (f : PeerID -> bool * option error) (env : Network.Env)
    : Network.Env :=
  {| Network.host_ID := Network.host_ID env;
     Network.dht_New := Network.dht_New env;
     Network.dht_Bootstrap := Network.dht_Bootstrap env;
     Network.AddrInfoFromP2pAddr := Network.AddrInfoFromP2pAddr env;
     Network.rt_TryAddPeer := f;
     Network.host_Connect := Network.host_Connect env;
     Network.host_NewStream := Network.host_NewStream env;
     Network.stream_Write := Network.stream_Write env;
     Network.stream_Close := Network.stream_Close env;
     Network.GetSelfNodeDataJson := Network.GetSelfNodeDataJson env |}.

(** What the loop adds to the state, however it ends: loop events in the
    caller's trace, and one goroutine per [wg.Add(1)], each for a peer other
    than the host. *)
Definition loop_effect (env : Network.Env) (proto : ProtocolID) (staked : bool)
    (st st' : Network.MainState) : Prop :=
  exists es infos,
    Network.m_trace st' = Network.m_trace st ++ es
    /\ Network.m_threads st' =
         Network.m_threads st ++ map (fun info => Network.attempt env proto staked info 0) infos
    /\ forallb Network.is_loop_event es = true
    /\ length (List.filter is_WgAdd es) = length infos
    /\ forallb (fun info => negb (String.eqb (ID info) (Network.host_ID env))) infos = true.

(** The same environment with another reader of inbound streams. *)
Definition withStreamData
    (f : Stream -> Pubsub.Tracker -> PeerID * Pubsub.NodeData * option error)
    (env : Masa.NodeEnv) : Masa.NodeEnv :=
  {| Masa.net := Masa.net env;
     Masa.GetBootNodesMultiAddress := Masa.GetBootNodesMultiAddress env;
     Masa.HasBootnodes := Masa.HasBootnodes env;
     Masa.ProtocolWithVersion := Masa.ProtocolWithVersion env;
     Masa.NodeDataSyncProtocol := Masa.NodeDataSyncProtocol env;
     Masa.NodeGossipTopic := Masa.NodeGossipTopic env;
     Masa.MasaPrefix := Masa.MasaPrefix env;
     Masa.GetPriorityAddress := Masa.GetPriorityAddress env;
     Masa.KeyManager_EthAddress := Masa.KeyManager_EthAddress env;
     Masa.WithMDNS := Masa.WithMDNS env;
     Masa.SubscribeToTopics := Masa.SubscribeToTopics env;
     Masa.time_Now := Masa.time_Now env;
     Masa.host_Connect := Masa.host_Connect env;
     Masa.network_ClosePeer := Masa.network_ClosePeer env;
     Masa.handleStreamData := f |}.

(** A relation between the world before and after a step that every step of
    [m] keeps. *)
Definition keeps {A} (R : Masa.World -> Masa.World -> Prop) (m : Masa.W A) : Prop :=
  forall w, R w (snd (m w)).

(** The parts of a node that no function of the node writes after its
    construction. *)
Definition same_identity (w w' : Masa.World) : Prop :=
  Masa.Protocol (Masa.w_node w') = Masa.Protocol (Masa.w_node w)
  /\ Masa.multiAddrs (Masa.w_node w') = Masa.multiAddrs (Masa.w_node w)
  /\ Masa.Signature (Masa.w_node w') = Masa.Signature (Masa.w_node w)
  /\ Masa.IsStaked (Masa.w_node w') = Masa.IsStaked (Masa.w_node w).

(** The events of the first list, then more. *)
Definition extends (w w' : Masa.World) : Prop :=
  exists new, Masa.w_trace w' = Masa.w_trace w ++ new.

(** The peers of the [PeerAdded] events a schedule delivers before the
    context is done, in order. *)
Fixpoint added_peers (schedule : list Masa.Selected) : list AddrInfo :=
  match schedule with
  | Masa.RecvPeer peer :: rest =>
      (if String.eqb (Action peer) Network.PeerAdded then [PE_AddrInfo peer] else [])
      ++ added_peers rest
  | _ => []
  end.

(** The peers a trace shows [Connect] to have been called with, and the
    peers it shows [ClosePeer] to have been called for, in order. *)
Definition connected (t : list Event) : list AddrInfo :=
  omap (fun e => match e with Call_Connect pi _ => Some pi | _ => None end) t.

Definition closed (t : list Event) : list PeerID :=
  omap (fun e => match e with Call_ClosePeer p _ => Some p | _ => None end) t.

(** The peers among the [Connect] calls of [t] that the host of [env]
    answers with an error, when [t] follows the events [before]. *)
Fixpoint refused (env : Masa.NodeEnv) (before t : list Event) : list PeerID :=
  match t with
  | [] => []
  | e :: rest =>
      match e with
      | Call_Connect pi _ =>
          match Masa.host_Connect env before pi with
          | Some _ => [ID pi]
          | None => []
          end
      | _ => []
      end ++ refused env (before ++ [e]) rest
  end.

End Observe.

(** ** [pkg/network]: the routing table monitor *)
Module Monitor.

(** [%d] of an [int]. *)
Definition itoa (n : Z) : string := NilZero.string_of_int (Z.to_int n).

(** What one [select] picks: a tick, with what the routing table then
    answers to [Size()] and [ListPeers()], or the closing of [ctx.Done()]. *)
Inductive Selected :=
| Tick (size : Z) (peers : list PeerID)
| CtxDone.

Inductive MonEvent :=
| NewTicker (interval : Z)
| TickerStop
| Out (e : Event).

Inductive MonResult := MonPanicked | MonReturned | MonWaiting.

(** The body of [case <-ticker.C]. *)
Definition onTick (size : Z) (peers : list PeerID) : list MonEvent :=
  Out (Log LInfo "Routing table size: %d" [AStr (itoa size)])
  :: map (fun p => Out (Log LDebug "Peer in routing table: %s" [AStr (ID_String p)])) peers.

Fixpoint loop (schedule : list Selected) : list MonEvent * MonResult :=
  match schedule with
  | [] => ([], MonWaiting)
  | Tick size peers :: rest =>
      let '(t, r) := loop rest in (onTick size peers ++ t, r)
  | CtxDone :: _ => ([], MonReturned)
  end.

(** [monitorRoutingTable], lines 135-155.  [time.NewTicker] panics on an
    interval that is not positive; [defer ticker.Stop()] runs when the
    function returns. *)
Definition monitorRoutingTable (interval : Z) (schedule : list Selected)
    : list MonEvent * MonResult :=
  if interval <=? 0 then ([], MonPanicked)
  else
    let '(t, r) := loop schedule in
    (NewTicker interval :: t
       ++ match r with MonReturned => [TickerStop] | _ => [] end, r).

(** The samples taken before the context is done. *)
Fixpoint samples (schedule : list Selected) : list (Z * list PeerID) :=
  match schedule with
  | Tick size peers :: rest => (size, peers) :: samples rest
  | _ => []
  end.

End Monitor.

(** ** [pkg]: building the node *)
Module Node.

(** The fields of the configuration that [NewOracleNode] and [main] read. *)
Record Config := mkConfig {
  UDP : bool;
  TCP : bool;
  PortNbr : Z;
  StakeAmount : string;
  WriterNode : string;
  AllowedPeer : bool
}.

Inductive TransportKind := QUIC | TCPTransport.
Inductive SecurityKind := Noise | TLS.

(** The libp2p options [NewOracleNode] builds. *)
#[warnings="-register-all"]
Inductive Libp2pOption :=
| Identity
| ResourceManager
| Ping (enable : bool)
| EnableNATService
| NATPortMap
| EnableRelay
| Transport (t : TransportKind)
| Muxer (name : string)
| Security (s : SecurityKind)
| ChainOptions (opts : list Libp2pOption)
| ListenAddrStrings (addrs : list string).

(** What the libraries and the other packages answer. *)
Record BuildEnv := mkBuildEnv {
  NewResourceManager : option error;
  libp2p_New : list Libp2pOption -> option error;
  NewPubSubManager : option error;
  OracleProtocolWithVersion : ProtocolID;
  GetMultiAddressesForHostQuiet : list Multiaddr
}.

Definition udpAddr (cfg : Config) : string :=
  String.append "/ip4/0.0.0.0/udp/" (String.append (Monitor.itoa (PortNbr cfg)) "/quic-v1").

Definition tcpAddr (cfg : Config) : string :=
  String.append "/ip4/0.0.0.0/tcp/" (Monitor.itoa (PortNbr cfg)).

(** The option list of lines 70-94, in the order the appends leave it. *)
Definition libp2pOptions (cfg : Config) : list Libp2pOption :=
  let addrStr : list string := [] in
  let libp2pOptions :=
    [Identity; ResourceManager; Ping false; EnableNATService; NATPortMap; EnableRelay] in
  let securityOptions := [Security Noise] in
  let '(addrStr, libp2pOptions) :=
    if UDP cfg then (addrStr ++ [udpAddr cfg], libp2pOptions ++ [Transport QUIC])
    else (addrStr, libp2pOptions) in
  let '(securityOptions, addrStr, libp2pOptions) :=
    if TCP cfg then
      (securityOptions ++ [Security TLS],
       addrStr ++ [tcpAddr cfg],
       (libp2pOptions ++ [Transport TCPTransport]) ++ [Muxer "/yamux/1.0.0"])
    else (securityOptions, addrStr, libp2pOptions) in
  let libp2pOptions := libp2pOptions ++ [ChainOptions securityOptions] in
  let libp2pOptions := libp2pOptions ++ [ListenAddrStrings addrStr] in
  libp2pOptions.

(** [NewOracleNode], lines 58-117: Go's pair of a [*OracleNode] and an
    [error], of which exactly one is nil. *)
Definition NewOracleNode (cfg : Config) (env : BuildEnv) (isStaked : bool)
    : Masa.OracleNode + error :=
  match NewResourceManager env with
  | Some err => inr err
  | None =>
      match libp2p_New env (libp2pOptions cfg) with
      | Some err => inr err
      | None =>
          match NewPubSubManager env with
          | Some err => inr err
          | None =>
              inl {| Masa.Protocol := OracleProtocolWithVersion env;
                     Masa.priorityAddrs := None;
                     Masa.multiAddrs := GetMultiAddressesForHostQuiet env;
                     Masa.DHT := None;
                     Masa.Signature := "";
                     Masa.IsStaked := isStaked;
                     Masa.StartTime := 0 |}
          end
      end
  end.

(** [IsPublisher], lines 217-220. *)
Definition IsPublisher (node : Masa.OracleNode) : bool :=
  negb (String.eqb (Masa.Signature node) "").

End Node.

(** ** [cmd/masa-node/main.go]: start-up *)
Module Cmd.

(** [strconv.ParseBool]. *)
Definition ParseBool (str : string) : bool * option error :=
  if existsb (String.eqb str) ["1"; "t"; "T"; "TRUE"; "true"; "True"] then (true, None)
  else if existsb (String.eqb str) ["0"; "f"; "F"; "FALSE"; "false"; "False"] then (false, None)
  else (false, Some "invalid syntax").

(** What lies outside [main]: the configuration, the staking package, what
    building and starting the node meet, the records a fresh node tracker
    holds, and the addresses of the host. *)
Record CmdEnv := mkCmdEnv {
  cfg : Node.Config;
  handleStaking : option error;
  VerifyStakingEvent : bool * option error;
  build : Node.BuildEnv;
  nodeEnv : Masa.NodeEnv;
  NewNodeEventTracker : Pubsub.Tracker;
  Host_Addrs : list Multiaddr;
  HexPubKey : string
}.

Inductive CmdEvent :=
| LogConfig
| SetupLogging
| Call_handleStaking (res : option error)
| Call_VerifyStakingEvent (res : bool * option error)
| Say (lvl : Level) (format : string) (args : list Arg)
| Fatal (e : error)                        (* logrus.Fatal: log, then exit 1 *)
| OsExit (code : Z)
| Call_NewOracleNode (isStaked : bool) (built : bool)
| Call_Start (res : Outcome (option error))
| GoInitResolverCache
| SignalNotify
| GoSignalHandler
| Call_SetupRoutes
| GoRouterRun
| DisplayWelcomeMessage (multiAddr ipAddr publicKeyHex : string)
    (isStaked isWriterNode : bool).

(** How [main] ends: the process exits, the goroutine panics, or it sits in
    [<-ctx.Done()]. *)
Inductive CmdResult :=
| ExitCode (code : Z)
| CmdPanic (reason : string)
| AwaitingDone.

(** The world of a node that was just built. *)
Definition fresh (env : CmdEnv) (node : Masa.OracleNode) : Masa.World :=
  {| Masa.w_trace := []; Masa.w_node := node;
     Masa.w_tracker := NewNodeEventTracker env; Masa.w_handlers := ∅;
     Masa.w_threads := []; Masa.w_dump := None; Masa.w_cancelled := false |}.

(** [main], lines 19-100, up to its last line: what follows the
    cancellation is not part of it.  The result holds how it ends, what it
    did, and the node's world if a node was built.  [api.SetupRoutes] and the
    goroutines are events, with no outcome of their own. *)
Definition main (env : CmdEnv) : CmdResult * list CmdEvent * option Masa.World :=
  let t := [LogConfig; SetupLogging] in
  if negb (String.eqb (Node.StakeAmount (cfg env)) "") then
    let err := handleStaking env in
    match err with
    | Some e => (ExitCode 1, t ++ [Call_handleStaking err; Fatal e], None)
    | None => (ExitCode 0, t ++ [Call_handleStaking err; OsExit 0], None)
    end
  else
    let '(isStaked, err) := VerifyStakingEvent env in
    let t := t ++ [Call_VerifyStakingEvent (isStaked, err)] in
    let t := match err with
             | Some e => t ++ [Say LError "%v" [AErr e]]
             | None => t
             end in
    let t := if negb isStaked
             then t ++ [Say LWarn "No staking event found for this address" []]
             else t in
    let isWriterNode := fst (ParseBool (Node.WriterNode (cfg env))) in
    match Node.NewOracleNode (cfg env) (build env) isStaked with
    | inr e => (ExitCode 1, t ++ [Call_NewOracleNode isStaked false; Fatal e], None)
    | inl node =>
        let t := t ++ [Call_NewOracleNode isStaked true] in
        let '(r, w) := Masa.Start (nodeEnv env) (fresh env node) in
        let t := t ++ [Call_Start r] in
        match r with
        | Panicked reason => (CmdPanic reason, t, Some w)
        | Returned (Some e) => (ExitCode 1, t ++ [Fatal e], Some w)
        | Returned None =>
            let self := ID_String (Network.host_ID (Masa.net (nodeEnv env))) in
            let t :=
              if Node.AllowedPeer (cfg env) then
                t ++ [Say LInfo
                        "This node is set as the allowed peer with ID: %s and PubKey: %s"
                        [AStr self; AStr (HexPubKey env)]]
              else t ++ [Say LInfo "This node is not set as the allowed peer" []] in
            let t := t ++ [GoInitResolverCache; SignalNotify; GoSignalHandler;
                           Call_SetupRoutes; GoRouterRun] in
            let '(multiAddr, w) := Masa.GetMultiAddrs (nodeEnv env) w in
            match Host_Addrs env with
            | [] => (CmdPanic "index out of range [0] with length 0", t, Some w)
            | ipAddr :: _ =>
                (AwaitingDone,
                 t ++ [DisplayWelcomeMessage multiAddr ipAddr
                         (Masa.KeyManager_EthAddress (nodeEnv env)) isStaked isWriterNode],
                 Some w)
            end
        end
    end.

Definition outcome (r : CmdResult * list CmdEvent * option Masa.World) : CmdResult :=
  fst (fst r).
Definition events (r : CmdResult * list CmdEvent * option Masa.World) : list CmdEvent :=
  snd (fst r).
Definition world (r : CmdResult * list CmdEvent * option Masa.World) : option Masa.World :=
  snd r.


End Cmd.

(** ** More concrete inputs *)
Module Sample2.

Definition config (stake : string) (writer : string) : Node.Config :=
  {| Node.UDP := true; Node.TCP := true; Node.PortNbr := 4001;
     Node.StakeAmount := stake; Node.WriterNode := writer; Node.AllowedPeer := false |}.

Definition buildEnv : Node.BuildEnv :=
  {| Node.NewResourceManager := None;
     Node.libp2p_New := fun _ => None;
     Node.NewPubSubManager := None;
     Node.OracleProtocolWithVersion := Sample.proto;
     Node.GetMultiAddressesForHostQuiet := ["/ip4/127.0.0.1/tcp/4001/p2p/QmSelf"] |}.

(** A process with the given stake amount and answer of the staking check. *)
Definition cmdEnv (stake : string) (verified : bool * option error) : Cmd.CmdEnv :=
  {| Cmd.cfg := config stake "true";
     Cmd.handleStaking := None;
     Cmd.VerifyStakingEvent := verified;
     Cmd.build := buildEnv;
     Cmd.nodeEnv := Sample.nodeEnv (inl [Sample.addrB]);
     Cmd.NewNodeEventTracker := ∅;
     Cmd.Host_Addrs := ["/ip4/127.0.0.1/tcp/4001"];
     Cmd.HexPubKey := "04ab" |}.

(** Two payloads that agree on the peer id, the chain address and the staked
    flag, and differ in everything else. *)
Definition payloadB' : Pubsub.NodeData :=
  {| Pubsub.PeerId := "QmB"; Pubsub.EthAddress := "0xB0b";
     Pubsub.Multiaddrs := "/ip4/203.0.113.9/tcp/1"; Pubsub.IsStaked := true;
     Pubsub.SelfIdentified := true; Pubsub.Activity := Pubsub.ActivityLeft;
     Pubsub.LastJoined := 5; Pubsub.LastLeft := 7; Pubsub.LastUpdated := 9 |}.

End Sample2.

(** * Properties of the bootstrap connector *)
Module BootstrapProps.
Import Network.

(** Unfolds the state-passing combinators of a goroutine body. *)
Ltac run_frame :=
  unfold attempt, runGoroutine, attemptBody, connect, newStream, write,
    emit, defer, incrPeerConnectionCount, sbind, sret; cbn.

(** The goroutine of one bootstrap peer, path by path. *)
Lemma attempt_connect_failed env proto staked pi counter e :
  host_Connect env pi = Some e ->
  attempt env proto staked pi counter =
    {| th_trace :=
         [CtxWithTimeout (30 * Second); Call_Connect pi (Some e);
          Log LError "Failed to connect to bootstrap peer %s: %v" [APeer (ID pi); AErr e]]
         ++ (if (maxRetries <=? S counter)%nat then [] else [Sleep retryDelay])
         ++ [WgDone; CtxCancel];
       th_count := 0 |}.
Proof.
  intros H. run_frame. rewrite H.
  destruct counter as [|[|c]]; reflexivity.
Qed.

Lemma attempt_stream_failed env proto staked pi counter e :
  host_Connect env pi = None ->
  host_NewStream env (ID pi) proto = inr e ->
  attempt env proto staked pi counter =
    {| th_trace :=
         [CtxWithTimeout (30 * Second); Call_Connect pi None;
          Log LInfo "Connection established with node:" [AInfo pi];
          Call_NewStream (ID pi) proto (inr e);
          Log LError "Error opening stream:" [AErr e];
          WgDone; CtxCancel];
       th_count := 0 |}.
Proof. intros H1 H2. run_frame. rewrite H1. cbn. rewrite H2. reflexivity. Qed.

Lemma attempt_stream_opened env proto staked pi counter s :
  host_Connect env pi = None ->
  host_NewStream env (ID pi) proto = inl s ->
  attempt env proto staked pi counter =
    {| th_trace :=
         [CtxWithTimeout (30 * Second); Call_Connect pi None;
          Log LInfo "Connection established with node:" [AInfo pi];
          Call_NewStream (ID pi) proto (inl s);
          Call_Write s (GetSelfNodeDataJson env staked)
            (stream_Write env s (GetSelfNodeDataJson env staked))]
         ++ match stream_Write env s (GetSelfNodeDataJson env staked) with
            | Some e => [Log LError "Error writing to stream:" [AErr e]]
            | None => []
            end
         ++ runDeferred env (DeferCloseStream s)
         ++ [WgDone; CtxCancel];
       th_count := 1 |}.
Proof.
  intros H1 H2. run_frame. rewrite H1. cbn. rewrite H2. cbn.
  destruct (stream_Write env s _); cbn;
    destruct (stream_Close env s); reflexivity.
Qed.

(** Whatever the outcome, the goroutine calls [host.Connect] once. *)
Lemma attempt_connects_once env proto staked pi counter :
  length (List.filter is_Connect (th_trace (attempt env proto staked pi counter))) = 1%nat.
Proof.
  destruct (host_Connect env pi) as [e|] eqn:Hc.
  - rewrite (attempt_connect_failed _ _ _ _ _ e Hc).
    destruct counter as [|[|c]]; reflexivity.
  - destruct (host_NewStream env (ID pi) proto) as [s|e] eqn:Hs.
    + rewrite (attempt_stream_opened _ _ _ _ _ s Hc Hs). cbn.
      destruct (stream_Write env s _); cbn;
        destruct (stream_Close env s); reflexivity.
    + rewrite (attempt_stream_failed _ _ _ _ _ e Hc Hs). reflexivity.
Qed.

(** *** The loop over the bootstrap list *)

Ltac run_main :=
  unfold bootstrapOne, mbindM, emitM, deref, go, mret, panic; cbn.

(** One turn of the loop adds loop events to the caller's trace and nothing
    else, whether it returns or panics. *)
Lemma bootstrapOne_trace env proto staked a st :
  exists es,
    m_trace (snd (bootstrapOne env proto staked a st)) = m_trace st ++ es
    /\ forallb is_loop_event es = true.
Proof.
  run_main.
  destruct (AddrInfoFromP2pAddr env a) as [[info|] [e|]]; cbn;
    try (destruct (String.eqb (ID info) (host_ID env)); cbn);
    try (destruct (rt_TryAddPeer env (ID info)) as [[|] [e'|]]; cbn);
    rewrite <- ?app_assoc; cbn;
    eexists; (split; [reflexivity | reflexivity]).
Qed.

(** An address that resolves never makes the turn panic; it starts one
    goroutine unless the peer is the host itself. *)
Lemma bootstrapOne_resolved env proto staked a st info err :
  AddrInfoFromP2pAddr env a = (Some info, err) ->
  fst (bootstrapOne env proto staked a st) = Returned tt
  /\ m_threads (snd (bootstrapOne env proto staked a st)) =
       m_threads st ++
       (if String.eqb (ID info) (host_ID env) then []
        else [attempt env proto staked info 0]).
Proof.
  intros H. run_main. rewrite H.
  destruct err as [e|]; cbn;
    destruct (String.eqb (ID info) (host_ID env)); cbn;
    try (destruct (rt_TryAddPeer env (ID info)) as [[|] [e'|]]; cbn);
    rewrite ?app_nil_r; split; reflexivity.
Qed.

(** An address that does not resolve: the error is logged, and reading
    [peerInfo.ID] through the nil pointer panics. *)
Lemma bootstrapOne_unresolved env proto staked a st e :
  AddrInfoFromP2pAddr env a = (None, Some e) ->
  bootstrapOne env proto staked a st =
    (Panicked "invalid memory address or nil pointer dereference",
     {| m_trace := m_trace st ++
          [Call_AddrInfoFromP2pAddr a (None, Some e); Log LError "kdht: %s" [AErr e]];
        m_threads := m_threads st |}).
Proof. intros H. run_main. rewrite H. cbn. rewrite <- app_assoc. reflexivity. Qed.

Lemma bootstrapAll_trace env proto staked nodes : forall st,
  exists es,
    m_trace (snd (bootstrapAll env proto staked nodes st)) = m_trace st ++ es
    /\ forallb is_loop_event es = true.
Proof.
  induction nodes as [|a rest IH]; intros st; cbn.
  - exists []. rewrite app_nil_r. split; reflexivity.
  - unfold mbindM.
    destruct (bootstrapOne_trace env proto staked a st) as (es1 & H1 & F1).
    destruct (bootstrapOne env proto staked a st) as [[[]|r] st1]; cbn in *.
    + destruct (IH st1) as (es2 & H2 & F2).
      exists (es1 ++ es2). rewrite H2, H1, <- app_assoc, forallb_app, F1, F2.
      split; reflexivity.
    + exists es1. split; assumption.
Qed.

Lemma bootstrapAll_resolved env proto staked nodes : forall st,
  forallb (resolves env) nodes = true ->
  fst (bootstrapAll env proto staked nodes st) = Returned tt
  /\ m_threads (snd (bootstrapAll env proto staked nodes st)) =
       m_threads st ++ map (fun info => attempt env proto staked info 0) (dialled env nodes).
Proof.
  induction nodes as [|a rest IH]; intros st Hres; cbn.
  - rewrite app_nil_r. split; reflexivity.
  - cbn in Hres. apply andb_true_iff in Hres as [Ha Hrest].
    unfold resolves in Ha. unfold mbindM.
    destruct (AddrInfoFromP2pAddr env a) as [[info|] err] eqn:Hr; [|discriminate].
    destruct (bootstrapOne_resolved env proto staked a st info err Hr) as [R T].
    destruct (bootstrapOne env proto staked a st) as [o st1]; cbn in *. subst o.
    destruct (IH st1 Hrest) as [R2 T2]. split; [exact R2|].
    rewrite T2, T, <- app_assoc. f_equal.
    destruct (String.eqb (ID info) (host_ID env)); reflexivity.
Qed.

(** *** [WithDht] as a whole *)

(** Two unreachable or skipped addresses: one goroutine, no connection, the
    warning, and a nil error. *)
Example WithDht_soft_warning :
  let run := WithDht (Sample.netEnv None) [Sample.addrA; Sample.addrSelf]
               Sample.proto Sample.prefix false start in
  snd <$> (match fst run with Returned r => Some r | Panicked _ => None end) = Some None
  /\ length (m_threads (snd run)) = 1%nat
  /\ last (m_trace (snd run)) = Some soft_warning.
Proof. vm_compute. repeat split. Qed.

(** A bootstrap list with an address that does not resolve makes [WithDht]
    panic at that address: nothing after it is looked at. *)
Lemma bootstrapAll_unresolved env proto staked pre a rest e : forall st,
  forallb (resolves env) pre = true ->
  AddrInfoFromP2pAddr env a = (None, Some e) ->
  fst (bootstrapAll env proto staked (pre ++ a :: rest) st) =
    Panicked "invalid memory address or nil pointer dereference".
Proof.
  induction pre as [|b pre IH]; intros st Hpre Ha; cbn.
  - unfold mbindM. rewrite (bootstrapOne_unresolved _ _ _ _ _ e Ha). reflexivity.
  - cbn in Hpre. apply andb_true_iff in Hpre as [Hb Hpre].
    unfold resolves in Hb. unfold mbindM.
    destruct (AddrInfoFromP2pAddr env b) as [[info|] err] eqn:Hr; [|discriminate].
    destruct (bootstrapOne_resolved env proto staked b st info err Hr) as [R _].
    destruct (bootstrapOne env proto staked b st) as [o st1]; cbn in *. subst o.
    apply IH; assumption.
Qed.

(** Whatever happens, [WithDht] leaves only connector events in the
    caller's trace. *)
Lemma loop_events_are_connector_events es :
  forallb is_loop_event es = true -> forallb is_connector_event es = true.
Proof.
  induction es as [|e es IH]; cbn; [reflexivity|].
  intros H. apply andb_true_iff in H as [He Hes]. rewrite (IH Hes), andb_true_r.
  destruct e; try discriminate; reflexivity.
Qed.

Lemma WithDht_trace env nodes proto prefix staked :
  forallb is_connector_event
    (m_trace (snd (WithDht env nodes proto prefix staked start))) = true.
Proof.
  unfold WithDht, mbindM, emitM, mret, peerConnectionCount.
  destruct (dht_New env); [reflexivity|].
  destruct (dht_Bootstrap env); [reflexivity|].
  match goal with
  | |- context [bootstrapAll ?e ?p ?s ?n ?st] =>
      destruct (bootstrapAll_trace e p s n st) as (es & Ht & Hf);
      destruct (bootstrapAll e p s n st) as [[[]|r] [tr th]]
  end; cbn [fst snd m_trace m_threads start app] in *; subst tr;
    apply loop_events_are_connector_events in Hf.
  - destruct (_ && _); cbn [fst snd m_trace];
      rewrite ?forallb_app; cbn; rewrite Hf; reflexivity.
  - cbn. exact Hf.
Qed.

(** **** The claims *)

(** C1 (the code departs from the claim).  The claim: a bootstrap peer whose
    connection attempt fails is tried again, up to [maxRetries] times,
    [retryDelay] apart.  The code, on a bootstrap list with one peer that
    cannot be reached: its goroutine calls [host.Connect] once, logs the
    failure, sleeps [retryDelay] once and ends; there is no second attempt. *)
Theorem failed_bootstrap_connect_is_not_retried :
  let run := WithDht (Sample.netEnv None) [Sample.addrA] Sample.proto Sample.prefix false start in
  map th_trace (m_threads (snd run)) =
    [[CtxWithTimeout (30 * Second);
      Call_Connect Sample.infoA (Some "dial backoff");
      Log LError "Failed to connect to bootstrap peer %s: %v"
        [APeer "QmA"; AErr "dial backoff"];
      Sleep retryDelay; WgDone; CtxCancel]]
  /\ length (List.filter is_Connect (concat (map th_trace (m_threads (snd run))))) = 1%nat
  /\ (1 < maxRetries)%nat.
Proof. vm_compute. repeat split; lia. Qed.

(** C4 (the code departs from the claim).  The claim: a bootstrap address
    that does not resolve to a peer is logged and skipped, and the remaining
    addresses are still processed.  The code, on a list whose first address
    names no peer: the failure is logged, then [WithDht] panics on the nil
    [peerInfo]; the second address is never resolved and no goroutine is
    started. *)
Theorem unresolved_bootstrap_address_is_not_skipped :
  let run := WithDht (Sample.netEnv None) [Sample.addrNoPeer; Sample.addrB]
               Sample.proto Sample.prefix false start in
  fst run = Panicked "invalid memory address or nil pointer dereference"
  /\ m_trace (snd run) =
       [Call_dhtNew None; GoMonitorRoutingTable Minute; Call_dhtBootstrap None;
        Call_AddrInfoFromP2pAddr Sample.addrNoPeer (None, Some "invalid p2p multiaddr");
        Log LError "kdht: %s" [AErr "invalid p2p multiaddr"]]
  /\ m_threads (snd run) = [].
Proof. vm_compute. repeat split. Qed.

(** C5 (the code departs from the claim).  The claim: with bootstrap
    addresses configured and none of them yielding a connection, [WithDht]
    returns the DHT and a nil error, without panicking.  The code, on a list
    holding one address that names no peer: [WithDht] does not return; it
    panics before [wg.Wait()], and the warning is never printed. *)
Theorem no_reachable_bootstrap_address_can_panic :
  let run := WithDht (Sample.netEnv None) [Sample.addrNoPeer]
               Sample.proto Sample.prefix false start in
  fst run = Panicked "invalid memory address or nil pointer dereference"
  /\ existsb is_Connect (concat (map th_trace (m_threads (snd run)))) = false
  /\ List.filter (fun e => match e with StdLog _ | WgWait => true | _ => false end)
       (m_trace (snd run)) = [].
Proof. vm_compute. repeat split. Qed.

(** C7.  In the goroutine of a bootstrap peer, a stream that [host.NewStream]
    opened is closed on every path: the trace has exactly one [Close] call,
    on that stream, after the write of the node data whatever the outcome of
    the write, and before the goroutine signals [wg.Done()]. *)
Theorem bootstrap_stream_is_always_closed env proto staked info counter p q s :
  In (Call_NewStream p q (inl s)) (th_trace (attempt env proto staked info counter)) ->
  exists pre post,
    th_trace (attempt env proto staked info counter) =
      pre ++ Call_Close s (stream_Close env s) :: post
    /\ In (Call_NewStream p q (inl s)) pre
    /\ In (Call_Write s (GetSelfNodeDataJson env staked)
             (stream_Write env s (GetSelfNodeDataJson env staked))) pre
    /\ existsb is_Close pre = false
    /\ existsb is_Close post = false
    /\ In WgDone post.
Proof.
  intros Hin.
  destruct (host_Connect env info) as [e|] eqn:Hc.
  - rewrite (attempt_connect_failed _ _ _ _ _ e Hc) in Hin.
    destruct counter as [|[|c]]; cbn in Hin; intuition discriminate.
  - destruct (host_NewStream env (ID info) proto) as [s'|e] eqn:Hs.
    + rewrite (attempt_stream_opened _ _ _ _ _ s' Hc Hs) in *.
      assert (s' = s /\ p = ID info /\ q = proto) as (-> & -> & ->).
      { cbn in Hin.
        destruct (stream_Write env s' _); cbn in Hin;
          destruct (stream_Close env s'); cbn in Hin;
          intuition (try discriminate); congruence. }
      exists ([CtxWithTimeout (30 * Second); Call_Connect info None;
               Log LInfo "Connection established with node:" [AInfo info];
               Call_NewStream (ID info) proto (inl s);
               Call_Write s (GetSelfNodeDataJson env staked)
                 (stream_Write env s (GetSelfNodeDataJson env staked))]
              ++ match stream_Write env s (GetSelfNodeDataJson env staked) with
                 | Some e => [Log LError "Error writing to stream:" [AErr e]]
                 | None => []
                 end),
             (match stream_Close env s with
              | Some e => [Log LError "Error closing stream:" [AErr e]]
              | None => []
              end ++ [WgDone; CtxCancel]).
      cbn [runDeferred th_trace].
      destruct (stream_Write env s _) as [we|];
        destruct (stream_Close env s) as [ce|]; cbn; intuition.
    + rewrite (attempt_stream_failed _ _ _ _ _ e Hc Hs) in Hin.
      cbn in Hin. intuition discriminate.
Qed.

Lemma bootstrap_stream_is_always_closed_witness :
  exists pre post,
    th_trace (attempt (Sample.netEnv (Some "stream reset")) Sample.proto true Sample.infoB 0) =
      pre ++ Call_Close Sample.streamB None :: post
    /\ In (Call_NewStream "QmB" Sample.proto (inl Sample.streamB)) pre
    /\ In (Call_Write Sample.streamB "{staked}" (Some "stream reset")) pre
    /\ existsb is_Close pre = false
    /\ existsb is_Close post = false
    /\ In WgDone post.
Proof.
  apply (bootstrap_stream_is_always_closed (Sample.netEnv (Some "stream reset"))
           Sample.proto true Sample.infoB 0 "QmB" Sample.proto Sample.streamB).
  vm_compute. right; right; right; left; reflexivity.
Defined.

(** C8 as the code has it.  The DHT that [WithDht] returns reports a peer
    added to its routing table as one PeerEvent with action [PeerAdded], and a
    peer removed from it as one PeerEvent with action [PeerRemoved]; both
    carry the peer id with no address and the source tag ["kdht"]. *)
Theorem routing_table_events_are_tagged_kdht env nodes proto prefix staked st dht err :
  fst (WithDht env nodes proto prefix staked st) = Returned (Some dht, err) ->
  forall p,
    sent (rt_PeerAdded dht p) =
      [{| PE_AddrInfo := {| ID := p; Addrs := [] |}; Action := PeerAdded; Source := "kdht" |}]
    /\ sent (rt_PeerRemoved dht p) =
      [{| PE_AddrInfo := {| ID := p; Addrs := [] |}; Action := PeerRemoved; Source := "kdht" |}].
Proof.
  unfold WithDht, mbindM, emitM, mret, peerConnectionCount.
  destruct (dht_New env); [discriminate|].
  destruct (dht_Bootstrap env); [discriminate|].
  match goal with
  | |- context [bootstrapAll ?e ?p ?s ?n ?st] => destruct (bootstrapAll e p s n st) as [[[]|r] st1]
  end; [|discriminate].
  destruct (_ && _); cbn; intros [= <- <-] p; split; reflexivity.
Qed.

Lemma routing_table_events_are_tagged_kdht_witness :
  sent (onPeerAdded "QmA") =
    [{| PE_AddrInfo := {| ID := "QmA"; Addrs := [] |}; Action := "PeerAdded"; Source := "kdht" |}]
  /\ sent (onPeerRemoved "QmA") =
    [{| PE_AddrInfo := {| ID := "QmA"; Addrs := [] |}; Action := "PeerRemoved"; Source := "kdht" |}].
Proof.
  apply (routing_table_events_are_tagged_kdht (Sample.netEnv None) [Sample.addrA; Sample.addrB]
           Sample.proto Sample.prefix false start
           {| dht_prefix := Sample.prefix; rt_PeerAdded := onPeerAdded;
              rt_PeerRemoved := onPeerRemoved |} None).
  vm_compute. reflexivity.
Defined.

(** C8 as the spec has it fails: the event for a peer added to the routing
    table does not carry the source tag ["routing-table"]. *)
Lemma routing_table_events_are_not_tagged_routing_table :
  ~ (forall pe, In pe (sent (onPeerAdded "QmA")) -> Source pe = "routing-table").
Proof. intros H. specialize (H _ (or_introl eq_refl)). discriminate H. Qed.

End BootstrapProps.

(** * Properties of the node's handlers *)
Module NodeProps.
Import Masa.

Ltac run_world :=
  unfold handleStream, AddOrUpdateNodeData, onPeerEvent, connect, closePeer,
    GetNodeData, LeftAt, JoinedAt, DumpNodeData, HandleNodeData,
    getTracker, getTrace, getNode, setTracker, emitW, sbind, sret; cbn.

(** *** [handleStream] *)

(** C2.  When [handleStreamData] delivers a payload without an error:
    if the remote peer of the connection differs from the peer id inside the
    payload, [handleStream] logs a warning and stops, the Tracker is as it
    was and [AddOrUpdateNodeData] is not called; if the two agree, it calls
    [AddOrUpdateNodeData] once, with the record built from the payload and
    [allowDowngrade = false], and the Tracker is the result of that merge. *)
Theorem handleStream_checks_the_claimed_identity env stream w remotePeer nodeData :
  handleStreamData env stream (w_tracker w) = (remotePeer, nodeData, None) ->
  let w' := snd (handleStream env stream w) in
  let newNodeData :=
    Pubsub.withIsStaked (Pubsub.IsStaked nodeData)
      (Pubsub.NewNodeData (RemoteMultiaddr stream) remotePeer (Pubsub.EthAddress nodeData)
         Pubsub.ActivityJoined (time_Now env)) in
  (remotePeer <> Pubsub.PeerId nodeData ->
     w_tracker w' = w_tracker w
     /\ w_trace w' =
          w_trace w ++ [Log LWarn "Received data from unexpected peer %s" [APeer remotePeer]])
  /\ (remotePeer = Pubsub.PeerId nodeData ->
     w_tracker w' = snd (Pubsub.AddOrUpdateNodeData newNodeData false (w_tracker w))
     /\ exists res after,
          w_trace w' = w_trace w ++ Call_AddOrUpdateNodeData newNodeData false res :: after
          /\ res = fst (Pubsub.AddOrUpdateNodeData newNodeData false (w_tracker w))
          /\ existsb is_AddOrUpdate after = false).
Proof.
  intros Hread. run_world. rewrite Hread. unfold ID_String. split.
  - intros Hne. apply String.eqb_neq in Hne. rewrite Hne. cbn. split; reflexivity.
  - intros Heq. apply String.eqb_eq in Heq. rewrite Heq. cbn.
    destruct (Pubsub.AddOrUpdateNodeData _ false (w_tracker w)) as [[e|] t'] eqn:Hm; cbn;
      (split; [reflexivity|]); eexists _, [_];
      rewrite <- app_assoc; repeat split; reflexivity.
Qed.

Lemma handleStream_checks_the_claimed_identity_witness :
  w_tracker (snd (handleStream (Sample.nodeEnv (inl [])) Sample.streamEve
                    (Sample.world0 true ∅))) = ∅
  /\ w_trace (snd (handleStream (Sample.nodeEnv (inl [])) Sample.streamEve
                    (Sample.world0 true ∅))) =
       [Log LWarn "Received data from unexpected peer %s" [APeer "QmEve"]].
Proof.
  apply (handleStream_checks_the_claimed_identity (Sample.nodeEnv (inl []))
           Sample.streamEve (Sample.world0 true ∅) "QmEve" Sample.payloadB).
  - reflexivity.
  - vm_compute. discriminate.
Defined.

(** The same handler on a payload that names its sender: one merge. *)
Example handleStream_accepts_matching_identity :
  let w' := snd (handleStream (Sample.nodeEnv (inl [])) Sample.streamB (Sample.world0 true ∅)) in
  Pubsub.IsStaked <$> (w_tracker w' !! "QmB") = Some true
  /\ List.filter is_AddOrUpdate (w_trace w') =
       [Call_AddOrUpdateNodeData
          (Pubsub.withIsStaked true
             (Pubsub.NewNodeData "/ip4/10.0.0.2/tcp/4001" "QmB" "0xB0b"
                Pubsub.ActivityJoined 1700000000)) false None].
Proof. vm_compute. split; reflexivity. Qed.

(** C3.  When [handleStreamData] fails: the Tracker is as it was; if the
    error message starts with ["un-staked"] the whole world is as it was, so
    nothing is logged; otherwise one line is logged, at error level. *)
Theorem handleStream_rejects_failed_reads env stream w remotePeer nodeData err :
  handleStreamData env stream (w_tracker w) = (remotePeer, nodeData, Some err) ->
  let w' := snd (handleStream env stream w) in
  w_tracker w' = w_tracker w
  /\ existsb is_AddOrUpdate (w_trace w') = existsb is_AddOrUpdate (w_trace w)
  /\ (HasPrefix err "un-staked" = true -> w' = w)
  /\ (HasPrefix err "un-staked" = false ->
      w_trace w' = w_trace w ++ [Log LError "Failed to read stream: %v" [AErr err]]).
Proof.
  intros Hread. run_world. rewrite Hread.
  destruct (HasPrefix err "un-staked") eqn:Hp; cbn.
  - repeat split; discriminate.
  - rewrite existsb_app. cbn. rewrite orb_false_r.
    repeat split; discriminate.
Qed.

Lemma handleStream_rejects_failed_reads_witness :
  let w := Sample.world0 true {[ "QmB" := Sample.payloadB ]} in
  let w' := snd (handleStream (Sample.nodeEnv (inl [])) Sample.streamUnstaked w) in
  w_tracker w' = w_tracker w
  /\ existsb is_AddOrUpdate (w_trace w') = existsb is_AddOrUpdate (w_trace w)
  /\ (HasPrefix "un-staked node is ignored: QmC" "un-staked" = true -> w' = w)
  /\ (HasPrefix "un-staked node is ignored: QmC" "un-staked" = false ->
      w_trace w' = w_trace w ++
        [Log LError "Failed to read stream: %v" [AErr "un-staked node is ignored: QmC"]]).
Proof.
  apply (handleStream_rejects_failed_reads (Sample.nodeEnv (inl [])) Sample.streamUnstaked
           (Sample.world0 true {[ "QmB" := Sample.payloadB ]}) "QmC" Sample.noData
           "un-staked node is ignored: QmC").
  reflexivity.
Defined.

(** Any other error is logged. *)
Example handleStream_logs_other_errors :
  w_trace (snd (handleStream (Sample.nodeEnv (inl [])) Sample.streamBroken
                  (Sample.world0 true ∅))) =
    [Log LError "Failed to read stream: %v" [AErr "stream reset"]].
Proof. reflexivity. Qed.

(** *** [handleDiscoveredPeers] *)

(** What the dispatcher does with one event. *)
Lemma onPeerEvent_added env peer w :
  Action peer = Network.PeerAdded ->
  let seen := Log LDebug "Peer Event for: %s, Action: %s"
                [AStr (ID_String (ID (PE_AddrInfo peer))); AStr (Action peer)] in
  let r := host_Connect env (w_trace w ++ [seen]) (PE_AddrInfo peer) in
  w_trace (snd (onPeerEvent env peer w)) =
    w_trace w ++ seen :: Call_Connect (PE_AddrInfo peer) r ::
      match r with
      | None => []
      | Some e =>
          let failed := Log LError "Connection failed for peer: %s %v"
                          [AStr (ID_String (ID (PE_AddrInfo peer))); AErr e] in
          let c := network_ClosePeer env
                     (w_trace w ++ [seen; Call_Connect (PE_AddrInfo peer) r; failed])
                     (ID (PE_AddrInfo peer)) in
          failed :: Call_ClosePeer (ID (PE_AddrInfo peer)) c ::
          match c with
          | Some e' => [Log LError "%v" [AErr e']]
          | None => []
          end
      end.
Proof.
  intros Ha. run_world. rewrite Ha. cbn.
  destruct (host_Connect env _ (PE_AddrInfo peer)) as [e|] eqn:Hc; cbn;
    rewrite <- ?app_assoc; cbn; [|reflexivity].
  destruct (network_ClosePeer env _ (ID (PE_AddrInfo peer))) as [e'|] eqn:Hz; cbn;
    rewrite <- ?app_assoc; cbn; reflexivity.
Qed.

Lemma onPeerEvent_other env peer w :
  Action peer <> Network.PeerAdded ->
  snd (onPeerEvent env peer w) =
    snd (emitW (Log LDebug "Peer Event for: %s, Action: %s"
                  [AStr (ID_String (ID (PE_AddrInfo peer))); AStr (Action peer)]) w).
Proof.
  intros Ha. apply String.eqb_neq in Ha. run_world. rewrite Ha. reflexivity.
Qed.

Lemma handleDiscoveredPeers_exits env schedule : forall w,
  fst (handleDiscoveredPeers env schedule w) = Exited <-> In CtxDone schedule.
Proof.
  induction schedule as [|[peer|] rest IH]; intros w; cbn [handleDiscoveredPeers In].
  - split; [discriminate | tauto].
  - unfold sbind. destruct (onPeerEvent env peer w) as [[] w1].
    rewrite IH. split; [tauto | intros [H|H]; [discriminate | exact H]].
  - split; auto.
Qed.

Lemma handleDiscoveredPeers_stops_at_done env pre post : forall w,
  ~ In CtxDone pre ->
  handleDiscoveredPeers env (pre ++ CtxDone :: post) w =
    (Exited, snd (handleDiscoveredPeers env pre w)).
Proof.
  induction pre as [|[peer|] pre IH]; intros w Hpre;
    cbn [handleDiscoveredPeers app].
  - reflexivity.
  - unfold sbind. destruct (onPeerEvent env peer w) as [[] w1].
    apply IH. intros H. apply Hpre. right. exact H.
  - exfalso. apply Hpre. left. reflexivity.
Qed.

(** C6.  The dispatcher loop, event by event.  On a [PeerAdded] event it
    calls [Connect] for the peer and records what the host answers; when that
    answer is an error it logs the failure and calls [ClosePeer] for that
    peer, when it is not it calls nothing more; in both cases it goes on with
    the next event.  On a [PeerRemoved] event it only writes a debug line: no
    call reaches the network.  The function returns exactly when a [select]
    takes the [Context.Done()] case; what the schedule holds after that is
    never looked at. *)
Theorem dispatcher_reacts_to_peer_events env :
  (forall peer w,
     Action peer = Network.PeerAdded ->
     let seen := Log LDebug "Peer Event for: %s, Action: %s"
                   [AStr (ID_String (ID (PE_AddrInfo peer))); AStr (Action peer)] in
     let r := host_Connect env (w_trace w ++ [seen]) (PE_AddrInfo peer) in
     w_trace (snd (onPeerEvent env peer w)) =
       w_trace w ++ seen :: Call_Connect (PE_AddrInfo peer) r ::
         match r with
         | None => []
         | Some e =>
             let failed := Log LError "Connection failed for peer: %s %v"
                             [AStr (ID_String (ID (PE_AddrInfo peer))); AErr e] in
             let c := network_ClosePeer env
                        (w_trace w ++ [seen; Call_Connect (PE_AddrInfo peer) r; failed])
                        (ID (PE_AddrInfo peer)) in
             failed :: Call_ClosePeer (ID (PE_AddrInfo peer)) c ::
             match c with
             | Some e' => [Log LError "%v" [AErr e']]
             | None => []
             end
         end)
  /\ (forall peer w,
       Action peer = Network.PeerRemoved ->
       w_trace (snd (onPeerEvent env peer w)) =
         w_trace w ++ [Log LDebug "Peer Event for: %s, Action: %s"
                         [AStr (ID_String (ID (PE_AddrInfo peer))); AStr (Action peer)]]
       /\ List.filter is_network_action (w_trace (snd (onPeerEvent env peer w))) =
            List.filter is_network_action (w_trace w))
  /\ (forall peer rest w,
       handleDiscoveredPeers env (RecvPeer peer :: rest) w =
         handleDiscoveredPeers env rest (snd (onPeerEvent env peer w)))
  /\ (forall schedule w,
       fst (handleDiscoveredPeers env schedule w) = Exited <-> In CtxDone schedule)
  /\ (forall pre post w,
       ~ In CtxDone pre ->
       handleDiscoveredPeers env (pre ++ CtxDone :: post) w =
         (Exited, snd (handleDiscoveredPeers env pre w))).
Proof.
  repeat apply conj.
  - intros peer w Ha. exact (onPeerEvent_added env peer w Ha).
  - intros peer w Ha.
    assert (Action peer <> Network.PeerAdded) as Hne by (rewrite Ha; discriminate).
    rewrite (onPeerEvent_other env peer w Hne). cbn.
    rewrite List.filter_app. cbn. rewrite app_nil_r. split; reflexivity.
  - intros peer rest w. cbn [handleDiscoveredPeers]. unfold sbind.
    destruct (onPeerEvent env peer w) as [[] w1]. reflexivity.
  - apply handleDiscoveredPeers_exits.
  - apply handleDiscoveredPeers_stops_at_done.
Qed.

Lemma dispatcher_reacts_to_peer_events_witness :
  w_trace (snd (onPeerEvent (Sample.nodeEnv (inl [])) Sample.peerAddedA
                  (Sample.world0 true ∅))) =
    [Log LDebug "Peer Event for: %s, Action: %s" [AStr "QmA"; AStr "PeerAdded"];
     Call_Connect Sample.infoA (Some "dial backoff");
     Log LError "Connection failed for peer: %s %v" [AStr "QmA"; AErr "dial backoff"];
     Call_ClosePeer "QmA" None].
Proof.
  apply (proj1 (dispatcher_reacts_to_peer_events (Sample.nodeEnv (inl [])))
           Sample.peerAddedA (Sample.world0 true ∅)).
  reflexivity.
Defined.

(** A run of the loop: a peer that answers, one that does not, a removal,
    the cancellation, and an event that arrives too late. *)
Example dispatcher_run :
  let r := handleDiscoveredPeers (Sample.nodeEnv (inl []))
             [RecvPeer Sample.peerAddedB; RecvPeer Sample.peerAddedA;
              RecvPeer Sample.peerRemovedA; CtxDone; RecvPeer Sample.peerAddedA]
             (Sample.world0 true ∅) in
  fst r = Exited
  /\ List.filter is_network_action (w_trace (snd r)) =
       [Call_Connect Sample.infoB None;
        Call_Connect Sample.infoA (Some "dial backoff");
        Call_ClosePeer "QmA" None].
Proof. vm_compute. split; reflexivity. Qed.

(** *** [Start] and the stream handlers *)

Lemma registers_quiet {A} (m : W A) w : quiet m -> registers m w [].
Proof. intros H. apply H. Qed.

Lemma registers_bind {A B} (m : W A) (k : A -> W B) w l1 l2 :
  registers m w l1 ->
  registers (k (fst (m w))) (snd (m w)) l2 ->
  registers (sbind m k) w (l1 ++ l2).
Proof.
  unfold registers, sbind. destruct (m w) as [a w1]; cbn.
  intros (n1 & T1 & F1 & H1) (n2 & T2 & F2 & H2).
  exists (n1 ++ n2). rewrite T2, T1, <- app_assoc, List.filter_app, F1, F2, H2, H1, foldl_app.
  repeat split.
Qed.

Lemma registers_after_quiet {A B} (m : W A) (k : A -> W B) w l :
  quiet m ->
  registers (k (fst (m w))) (snd (m w)) l ->
  registers (sbind m k) w l.
Proof. intros Hq Hk. apply (registers_bind m k w [] l (Hq w) Hk). Qed.

Lemma registers_setStreamHandler pid h w :
  registers (setStreamHandler pid h) w [SetStreamHandler pid h].
Proof. exists [SetStreamHandler pid h]. repeat split. Qed.

Lemma registers_after_setStreamHandler {B} pid h (k : unit -> W B) w l :
  registers (k tt) (snd (setStreamHandler pid h w)) l ->
  registers (sbind (setStreamHandler pid h) k) w (SetStreamHandler pid h :: l).
Proof.
  intros Hk.
  apply (registers_bind (setStreamHandler pid h) k w [SetStreamHandler pid h] l);
    [apply registers_setStreamHandler | exact Hk].
Qed.

(** Steps that register nothing. *)
Lemma quiet_sret {A} (a : A) : quiet (sret a).
Proof. intros w. exists []. cbn. rewrite app_nil_r. repeat split. Qed.

Lemma quiet_sbind {A B} (m : W A) (k : A -> W B) :
  quiet m -> (forall a, quiet (k a)) -> quiet (sbind m k).
Proof. intros Hm Hk w. apply (registers_bind m k w [] []); [apply Hm | apply Hk]. Qed.

Lemma quiet_emitAll es :
  List.filter is_SetStreamHandler es = [] -> quiet (emitAll es).
Proof. intros H w. exists es. repeat split. exact H. Qed.

Lemma quiet_emitW e : is_SetStreamHandler e = false -> quiet (emitW e).
Proof. intros H w. exists [e]. cbn. rewrite H. repeat split. Qed.

Lemma quiet_getNode : quiet getNode.
Proof. intros w. exists []. cbn. rewrite app_nil_r. repeat split. Qed.
Lemma quiet_getTracker : quiet getTracker.
Proof. intros w. exists []. cbn. rewrite app_nil_r. repeat split. Qed.
Lemma quiet_getTrace : quiet getTrace.
Proof. intros w. exists []. cbn. rewrite app_nil_r. repeat split. Qed.

Lemma quiet_setNode f : quiet (setNode f).
Proof. intros w. exists []. cbn. rewrite app_nil_r. repeat split. Qed.
Lemma quiet_setTracker f : quiet (setTracker f).
Proof. intros w. exists []. cbn. rewrite app_nil_r. repeat split. Qed.
Lemma quiet_addThreads ts : quiet (addThreads ts).
Proof. intros w. exists []. cbn. rewrite app_nil_r. repeat split. Qed.

Create HintDb quiet.
#[local] Hint Resolve quiet_sret quiet_getNode quiet_getTracker quiet_getTrace
  quiet_setNode quiet_setTracker quiet_addThreads : quiet.
#[local] Hint Extern 1 (quiet (emitW _)) => (apply quiet_emitW; reflexivity) : quiet.

(** Takes a step apart along its binds and case distinctions. *)
Ltac quiet_steps :=
  repeat first
    [ progress cbv zeta
    | solve [auto with quiet]
    | apply quiet_sbind; [|intros ?]
    | match goal with
      | |- quiet (match ?x with _ => _ end) => destruct x
      end ].

Lemma quiet_GetNodeData key : quiet (GetNodeData key).
Proof. unfold GetNodeData. quiet_steps. Qed.

Lemma quiet_JoinedAt env ptr : quiet (JoinedAt env ptr).
Proof. unfold JoinedAt. quiet_steps. Qed.

Lemma quiet_HandleNodeData nd : quiet (HandleNodeData nd).
Proof. unfold HandleNodeData. quiet_steps. Qed.

Lemma quiet_GetMultiAddrs env : quiet (GetMultiAddrs env).
Proof. unfold GetMultiAddrs. quiet_steps. Qed.

Lemma connector_events_register_nothing es :
  forallb Network.is_connector_event es = true ->
  List.filter is_SetStreamHandler es = [].
Proof.
  induction es as [|e es IH]; cbn; [reflexivity|].
  intros H. apply andb_true_iff in H as [He Hes].
  destruct e; try discriminate; cbn; auto.
Qed.

Lemma quiet_withDht env nodes proto prefix staked :
  quiet (withDht env nodes proto prefix staked).
Proof.
  unfold withDht.
  pose proof (BootstrapProps.WithDht_trace (net env) nodes proto prefix staked) as H.
  destruct (Network.WithDht _ _ _ _ _ _) as [r st]; cbn in H.
  quiet_steps. apply quiet_emitAll, connector_events_register_nothing, H.
Qed.

#[local] Hint Resolve quiet_GetNodeData quiet_JoinedAt quiet_HandleNodeData
  quiet_GetMultiAddrs quiet_withDht : quiet.

(** [GetMultiAddrs] may fill in [priorityAddrs]; it leaves the rest of the
    node alone. *)
Lemma GetMultiAddrs_node env w :
  Protocol (w_node (snd (GetMultiAddrs env w))) = Protocol (w_node w)
  /\ IsStaked (w_node (snd (GetMultiAddrs env w))) = IsStaked (w_node w).
Proof.
  unfold GetMultiAddrs, sbind, getNode, setNode, sret.
  destruct (priorityAddrs (w_node w)); split; reflexivity.
Qed.

(** The registrations of [Start], once the boot node addresses are read. *)
Lemma Start_registers env w bootNodeAddrs :
  GetBootNodesMultiAddress env = inl bootNodeAddrs ->
  registers (Start env) w
    (SetStreamHandler (Protocol (w_node w)) H_handleStream ::
     SetStreamHandler (ProtocolWithVersion env (NodeDataSyncProtocol env)) H_ReceiveNodeData ::
     if IsStaked (w_node w)
     then [SetStreamHandler (ProtocolWithVersion env (NodeGossipTopic env)) H_GossipNodeData]
     else []).
Proof.
  intros Hboot. unfold Start.
  destruct (GetMultiAddrs_node env w) as [HP HS].
  apply registers_after_quiet; [auto with quiet|].
  revert HP HS.
  generalize (snd (GetMultiAddrs env w)) as w1, (fst (GetMultiAddrs env w)) as addr.
  intros w1 addr HP HS.
  apply registers_after_quiet; [auto with quiet|]. cbv zeta.
  apply registers_after_quiet; [auto with quiet|]. rewrite Hboot.
  apply registers_after_quiet; [auto with quiet|]. cbn [fst snd getNode emitW w_node].
  rewrite HP, HS.
  apply registers_after_setStreamHandler.
  apply registers_after_setStreamHandler.
  destruct (IsStaked (w_node w)).
  - apply registers_after_setStreamHandler. apply registers_quiet. quiet_steps.
  - apply registers_after_quiet; [auto with quiet|]. apply registers_quiet. quiet_steps.
Qed.

(** C10.  Once [Start] has read the boot node addresses, the stream handlers
    it installs are, in this order: [handleStream] on the node's own
    protocol, [ReceiveNodeData] on the node-data sync protocol and, exactly
    when the node itself is staked, [GossipNodeData] on the gossip protocol.
    The first two are installed whether the node is staked or not; an
    unstaked node installs no handler on the gossip protocol. *)
Theorem gossip_handler_is_installed_only_when_staked env w bootNodeAddrs :
  GetBootNodesMultiAddress env = inl bootNodeAddrs ->
  let w' := snd (Start env w) in
  let primary := SetStreamHandler (Protocol (w_node w)) H_handleStream in
  let sync :=
    SetStreamHandler (ProtocolWithVersion env (NodeDataSyncProtocol env)) H_ReceiveNodeData in
  let gossip :=
    SetStreamHandler (ProtocolWithVersion env (NodeGossipTopic env)) H_GossipNodeData in
  exists new,
    w_trace w' = w_trace w ++ new
    /\ List.filter is_SetStreamHandler new =
         (if IsStaked (w_node w) then [primary; sync; gossip] else [primary; sync])
    /\ w_handlers w' =
         foldl install (w_handlers w)
           (if IsStaked (w_node w) then [primary; sync; gossip] else [primary; sync])
    /\ (forall pid, In (SetStreamHandler pid H_GossipNodeData) new <->
                    IsStaked (w_node w) = true
                    /\ pid = ProtocolWithVersion env (NodeGossipTopic env)).
Proof.
  intros Hboot w' primary sync gossip.
  destruct (Start_registers env w bootNodeAddrs Hboot) as (new & Ht & Hf & Hh).
  exists new. fold w' in Ht, Hh.
  assert (List.filter is_SetStreamHandler new =
          if IsStaked (w_node w) then [primary; sync; gossip] else [primary; sync]) as Hf'.
  { rewrite Hf. destruct (IsStaked (w_node w)); reflexivity. }
  split; [exact Ht|]. split; [exact Hf'|]. split.
  { rewrite Hh. destruct (IsStaked (w_node w)); reflexivity. }
  intros pid. split.
  - intros Hin.
    assert (In (SetStreamHandler pid H_GossipNodeData) (List.filter is_SetStreamHandler new))
      as Hin' by (apply List.filter_In; split; [exact Hin | reflexivity]).
    rewrite Hf' in Hin'. subst primary sync gossip.
    destruct (IsStaked (w_node w)); cbn in Hin'; intuition congruence.
  - intros [Hs ->].
    assert (In gossip (List.filter is_SetStreamHandler new)) as Hin.
    { rewrite Hf', Hs. right; right; left; reflexivity. }
    apply List.filter_In in Hin. apply Hin.
Qed.

Lemma gossip_handler_is_installed_only_when_staked_witness :
  let env := Sample.nodeEnv (inl [Sample.addrA; Sample.addrB]) in
  let w := Sample.world0 false ∅ in
  let w' := snd (Start env w) in
  let primary := SetStreamHandler Sample.proto H_handleStream in
  let sync := SetStreamHandler "/masa/nodeDataSync/v0.0.1" H_ReceiveNodeData in
  exists new,
    w_trace w' = w_trace w ++ new
    /\ List.filter is_SetStreamHandler new = [primary; sync]
    /\ w_handlers w' = foldl install (w_handlers w) [primary; sync]
    /\ (forall pid, In (SetStreamHandler pid H_GossipNodeData) new <->
                    false = true /\ pid = "/masa/gossip/v0.0.1").
Proof.
  apply (gossip_handler_is_installed_only_when_staked
           (Sample.nodeEnv (inl [Sample.addrA; Sample.addrB]))
           (Sample.world0 false ∅) [Sample.addrA; Sample.addrB]).
  reflexivity.
Defined.

(** A staked node installs all three handlers. *)
Example staked_node_installs_gossip_handler :
  let h := w_handlers (snd (Start (Sample.nodeEnv (inl [Sample.addrB]))
                              (Sample.world0 true ∅))) in
  h !! "/masa/oracle_protocol/v0.0.1" = Some H_handleStream
  /\ h !! "/masa/nodeDataSync/v0.0.1" = Some H_ReceiveNodeData
  /\ h !! "/masa/gossip/v0.0.1" = Some H_GossipNodeData.
Proof. vm_compute. repeat split. Qed.

End NodeProps.

(** * Properties of the shutdown *)
Module ShutdownProps.
Import Masa Main.

Ltac run_shutdown :=
  unfold shutdown, awaitDone, onSignal, cancel, GetNodeData, LeftAt, DumpNodeData,
    getTracker, setTracker, emitW, sbind, sret; cbn.

(** C9 as the code has it.  When the signal arrives, the goroutine looks up
    the local node's own record.  If the Tracker holds one, that record is
    marked [Left] in the Tracker, the other records staying as they are; if
    it holds none, nothing is marked.  Then the full mapping, as it is at
    that point, is dumped, and only after the dump is the context cancelled;
    [main] returns after the cancellation. *)
Theorem shutdown_marks_left_dumps_then_cancels env w :
  let self := ID_String (Network.host_ID (net env)) in
  let w' := snd (onSignal env w) in
  match w_tracker w !! self with
  | Some nd =>
      w_trace w' = w_trace w ++
        [Call_GetNodeData self true; Call_Left self; Call_DumpNodeData; CtxCancel]
      /\ w_tracker w' !! self = Some (Pubsub.Left (time_Now env) nd)
      /\ Pubsub.Activity <$> (w_tracker w' !! self) = Some Pubsub.ActivityLeft
  | None =>
      w_trace w' = w_trace w ++ [Call_GetNodeData self false; Call_DumpNodeData; CtxCancel]
      /\ w_tracker w' = w_tracker w
  end
  /\ (forall key, key <> self -> w_tracker w' !! key = w_tracker w !! key)
  /\ w_dump w' = Some (w_tracker w')
  /\ w_cancelled w' = true
  /\ shutdown env w = (Exited, snd (emitW ProcessExit w')).
Proof.
  run_shutdown.
  destruct (w_tracker w !! ID_String (Network.host_ID (net env))) as [nd|] eqn:Hl; cbn;
    rewrite <- ?app_assoc; cbn.
  - rewrite lookup_alter_eq, Hl. cbn.
    repeat split. intros key Hne. apply lookup_alter_ne. congruence.
  - repeat split.
Qed.

(** C9 as the spec has it fails when the Tracker holds no record of the local
    node: after the shutdown no record of the local node is marked [Left],
    in the Tracker or in the dump, and no [Left] transition was made. *)
Lemma shutdown_without_own_record_marks_nothing :
  let w' := snd (onSignal (Sample.nodeEnv (inl [])) (Sample.world0 false ∅)) in
  ~ (exists nd, w_tracker w' !! "QmSelf" = Some nd
                /\ Pubsub.Activity nd = Pubsub.ActivityLeft)
  /\ w_dump w' = Some ∅
  /\ existsb is_Left (w_trace w') = false
  /\ w_cancelled w' = true.
Proof.
  cbv zeta. split; [|vm_compute; repeat split].
  intros (nd & Hnd & _). vm_compute in Hnd. discriminate Hnd.
Qed.

(** With a record of its own, the node is dumped as [Left]. *)
Example shutdown_with_own_record :
  let w := Sample.world0 true {[ "QmSelf" := Sample.selfData ]} in
  let r := shutdown (Sample.nodeEnv (inl [])) w in
  fst r = Exited
  /\ w_trace (snd r) =
       [Call_GetNodeData "QmSelf" true; Call_Left "QmSelf"; Call_DumpNodeData;
        CtxCancel; ProcessExit]
  /\ (w_dump (snd r) ≫= fun t => Pubsub.Activity <$> (t !! "QmSelf"))
     = Some Pubsub.ActivityLeft.
Proof. vm_compute. repeat split. Qed.

End ShutdownProps.

(** * Further properties of the bootstrap connector *)
Module ConnectorFacts.
Import Network Observe.

(** *** One goroutine *)

(** X2.  The goroutine of a bootstrap peer opens with its 30 second timeout
    context and ends with [wg.Done()] followed by the release of that
    context, on every path; in between it neither signals the wait group nor
    touches the context again. *)
Ltac pick_mid :=
  first
    [ solve [eexists [_; _]; split; reflexivity]
    | solve [eexists [_; _; _]; split; reflexivity]
    | solve [eexists [_; _; _; _]; split; reflexivity]
    | solve [eexists [_; _; _; _; _]; split; reflexivity]
    | solve [eexists [_; _; _; _; _; _]; split; reflexivity]
    | solve [eexists [_; _; _; _; _; _; _]; split; reflexivity] ].

Theorem goroutine_signals_and_releases_last env proto staked info counter :
  exists mid,
    th_trace (attempt env proto staked info counter) =
      CtxWithTimeout (30 * Second) :: mid ++ [WgDone; CtxCancel]
    /\ existsb is_frame_event mid = false.
Proof.
  destruct (host_Connect env info) as [e|] eqn:Hc.
  - rewrite (BootstrapProps.attempt_connect_failed _ _ _ _ _ e Hc).
    destruct counter as [|[|c]]; cbn; pick_mid.
  - destruct (host_NewStream env (ID info) proto) as [s|e] eqn:Hs.
    + rewrite (BootstrapProps.attempt_stream_opened _ _ _ _ _ s Hc Hs). cbn.
      destruct (stream_Write env s _); destruct (stream_Close env s); cbn; pick_mid.
    + rewrite (BootstrapProps.attempt_stream_failed _ _ _ _ _ e Hc Hs). cbn. pick_mid.
Qed.

(** X3.  [peerConnectionCount] is raised by a goroutine at most once, and
    exactly when its handshake stream was opened: an established connection
    on which [NewStream] fails does not count, and a failed write on an open
    stream does not take the count back. *)
Theorem goroutine_counts_opened_streams env proto staked info counter :
  let t := attempt env proto staked info counter in
  th_count t = length (List.filter is_stream_opened (th_trace t))
  /\ (th_count t <= 1)%nat
  /\ (th_count t = 1%nat <->
      host_Connect env info = None
      /\ exists s, host_NewStream env (ID info) proto = inl s).
Proof.
  cbv zeta.
  destruct (host_Connect env info) as [e|] eqn:Hc.
  - rewrite (BootstrapProps.attempt_connect_failed _ _ _ _ _ e Hc).
    destruct counter as [|[|c]]; cbn; (split; [reflexivity|]); (split; [lia|]);
      (split; [discriminate | intros [[=] _]]).
  - destruct (host_NewStream env (ID info) proto) as [s|e] eqn:Hs.
    + rewrite (BootstrapProps.attempt_stream_opened _ _ _ _ _ s Hc Hs). cbn.
      split; [|split; [lia|split; [intros _; split; [reflexivity | exists s; reflexivity]
                                  | reflexivity]]].
      destruct (stream_Write env s _); destruct (stream_Close env s); reflexivity.
    + rewrite (BootstrapProps.attempt_stream_failed _ _ _ _ _ e Hc Hs). cbn.
      split; [reflexivity|]. split; [lia|].
      split; [discriminate | intros [_ [s [=]]]].
Qed.

(** A goroutine dials, and opens its stream to, the peer it was started
    for. *)
Lemma attempt_reaches_only_its_peer env proto staked info counter p :
  String.eqb (ID info) p = false ->
  existsb (reaches p) (th_trace (attempt env proto staked info counter)) = false.
Proof.
  intros Hp.
  destruct (host_Connect env info) as [e|] eqn:Hc.
  - rewrite (BootstrapProps.attempt_connect_failed _ _ _ _ _ e Hc).
    destruct counter as [|[|c]]; cbn; rewrite Hp; reflexivity.
  - destruct (host_NewStream env (ID info) proto) as [s|e] eqn:Hs.
    + rewrite (BootstrapProps.attempt_stream_opened _ _ _ _ _ s Hc Hs). cbn.
      rewrite Hp.
      destruct (stream_Write env s _); destruct (stream_Close env s); reflexivity.
    + rewrite (BootstrapProps.attempt_stream_failed _ _ _ _ _ e Hc Hs). cbn.
      rewrite Hp. reflexivity.
Qed.

(** *** The loop and its goroutines *)

#[local] Arguments attempt : simpl never.

Lemma loop_effect_refl env proto staked st : loop_effect env proto staked st st.
Proof. exists [], []. cbn. rewrite !app_nil_r. repeat split. Qed.

Lemma loop_effect_trans env proto staked st1 st2 st3 :
  loop_effect env proto staked st1 st2 ->
  loop_effect env proto staked st2 st3 ->
  loop_effect env proto staked st1 st3.
Proof.
  intros (es1 & i1 & T1 & H1 & L1 & A1 & S1) (es2 & i2 & T2 & H2 & L2 & A2 & S2).
  exists (es1 ++ es2), (i1 ++ i2).
  rewrite T2, T1, H2, H1, <- !app_assoc, map_app, forallb_app, L1, L2,
    List.filter_app, !length_app, A1, A2, forallb_app, S1, S2.
  repeat split.
Qed.

Lemma bootstrapOne_effect env proto staked a st :
  loop_effect env proto staked st (snd (bootstrapOne env proto staked a st)).
Proof.
  unfold loop_effect. BootstrapProps.run_main.
  destruct (AddrInfoFromP2pAddr env a) as [[info|] [e|]]; cbn;
    try (destruct (String.eqb (ID info) (host_ID env)) eqn:Hself; cbn);
    try (destruct (rt_TryAddPeer env (ID info)) as [[|] [e'|]]; cbn);
    rewrite <- ?app_assoc; cbn;
    first [ solve [eexists _, []; (split; [reflexivity|]); cbn;
                   rewrite ?app_nil_r; repeat split]
          | solve [eexists _, [info]; (split; [reflexivity|]); cbn;
                   rewrite ?Hself; repeat split] ].
Qed.

Lemma bootstrapAll_effect env proto staked nodes : forall st,
  loop_effect env proto staked st (snd (bootstrapAll env proto staked nodes st)).
Proof.
  induction nodes as [|a rest IH]; intros st; cbn [bootstrapAll].
  - apply loop_effect_refl.
  - unfold mbindM.
    pose proof (bootstrapOne_effect env proto staked a st) as H1.
    destruct (bootstrapOne env proto staked a st) as [[[]|r] st1]; cbn [snd] in *.
    + eapply loop_effect_trans; [exact H1 | apply IH].
    + exact H1.
Qed.

(** The three ways a call of [WithDht] can go. *)
Lemma WithDht_cases env nodes proto prefix staked :
  let run := WithDht env nodes proto prefix staked start in
  (exists e, dht_New env = Some e
             /\ run = (Returned (None, Some e),
                       {| m_trace := [Call_dhtNew (Some e)]; m_threads := [] |}))
  \/ (exists e, dht_New env = None /\ dht_Bootstrap env = Some e
              /\ run = (Returned (None, Some e),
                        {| m_trace := [Call_dhtNew None; GoMonitorRoutingTable Minute;
                                       Call_dhtBootstrap (Some e)];
                           m_threads := [] |}))
  \/ (dht_New env = None /\ dht_Bootstrap env = None
      /\ exists st,
           loop_effect env proto staked
             {| m_trace := [Call_dhtNew None; GoMonitorRoutingTable Minute;
                            Call_dhtBootstrap None];
                m_threads := [] |} st
           /\ ((exists r, run = (Panicked r, st))
               \/ run = (Returned (Some {| dht_prefix := prefix;
                                           rt_PeerAdded := onPeerAdded;
                                           rt_PeerRemoved := onPeerRemoved |}, None),
                         {| m_trace :=
                              m_trace st ++ WgWait ::
                              (if (0 <? length nodes)%nat
                                  && (sum_list (map th_count (m_threads st)) =? 0)%nat
                               then [soft_warning] else []);
                            m_threads := m_threads st |}))).
Proof.
  cbv zeta. unfold WithDht, mbindM, emitM, mret, peerConnectionCount.
  destruct (dht_New env) as [e|]; [left; exists e; split; reflexivity|].
  destruct (dht_Bootstrap env) as [e|];
    [right; left; exists e; repeat split; reflexivity|].
  right; right. split; [reflexivity|]. split; [reflexivity|].
  match goal with
  | |- context [bootstrapAll ?e ?p ?s ?n ?st] =>
      pose proof (bootstrapAll_effect e p s n st) as Heff;
      destruct (bootstrapAll e p s n st) as [[[]|r] st1]
  end; cbn [fst snd m_trace m_threads start app] in *; exists st1; (split; [exact Heff|]).
  - right. destruct (_ && _); cbn [fst snd m_trace m_threads];
      rewrite <- ?app_assoc; reflexivity.
  - left. exists r. reflexivity.
Qed.

Lemma attempt_one_WgDone env proto staked info counter :
  length (List.filter is_WgDone (th_trace (attempt env proto staked info counter))) = 1%nat.
Proof.
  destruct (host_Connect env info) as [e|] eqn:Hc.
  - rewrite (BootstrapProps.attempt_connect_failed _ _ _ _ _ e Hc).
    destruct counter as [|[|c]]; reflexivity.
  - destruct (host_NewStream env (ID info) proto) as [s|e] eqn:Hs.
    + rewrite (BootstrapProps.attempt_stream_opened _ _ _ _ _ s Hc Hs). cbn.
      destruct (stream_Write env s _); destruct (stream_Close env s); reflexivity.
    + rewrite (BootstrapProps.attempt_stream_failed _ _ _ _ _ e Hc Hs). reflexivity.
Qed.

Lemma attempt_count_opened env proto staked info counter :
  th_count (attempt env proto staked info counter) =
    length (List.filter is_stream_opened (th_trace (attempt env proto staked info counter))).
Proof.
  destruct (host_Connect env info) as [e|] eqn:Hc.
  - rewrite (BootstrapProps.attempt_connect_failed _ _ _ _ _ e Hc).
    destruct counter as [|[|c]]; reflexivity.
  - destruct (host_NewStream env (ID info) proto) as [s|e] eqn:Hs.
    + rewrite (BootstrapProps.attempt_stream_opened _ _ _ _ _ s Hc Hs). cbn.
      destruct (stream_Write env s _); destruct (stream_Close env s); reflexivity.
    + rewrite (BootstrapProps.attempt_stream_failed _ _ _ _ _ e Hc Hs). reflexivity.
Qed.

Lemma threads_reach_only_their_peers env proto staked infos :
  forallb (fun info => negb (String.eqb (ID info) (host_ID env))) infos = true ->
  existsb (reaches (host_ID env))
    (thread_events (map (fun info => attempt env proto staked info 0) infos)) = false.
Proof.
  unfold thread_events.
  induction infos as [|info infos IH]; cbn; [reflexivity|].
  intros H. apply andb_true_iff in H as [Hi Hrest].
  rewrite existsb_app, (IH Hrest), orb_false_r.
  apply attempt_reaches_only_its_peer. apply negb_true_iff. exact Hi.
Qed.

Lemma threads_signal_once env proto staked infos :
  forallb (fun t => (length (List.filter is_WgDone (th_trace t)) =? 1)%nat)
    (map (fun info => attempt env proto staked info 0) infos) = true.
Proof.
  induction infos as [|info infos IH]; cbn; [reflexivity|].
  rewrite attempt_one_WgDone, IH. reflexivity.
Qed.

Lemma threads_count_opened env proto staked infos :
  sum_list (map th_count (map (fun info => attempt env proto staked info 0) infos)) =
    length (List.filter is_stream_opened
              (thread_events (map (fun info => attempt env proto staked info 0) infos))).
Proof.
  unfold thread_events.
  induction infos as [|info infos IH]; cbn; [reflexivity|].
  rewrite List.filter_app, length_app, IH, attempt_count_opened. reflexivity.
Qed.

Lemma loop_events_have_no_wait es :
  forallb is_loop_event es = true ->
  In soft_warning es -> False.
Proof.
  intros H Hin. rewrite forallb_forall in H. specialize (H _ Hin). discriminate H.
Qed.

(** *** [WithDht] *)

(** X4.  No goroutine of [WithDht] dials the host itself or opens a stream
    to it, whatever the bootstrap list holds and however the call ends. *)
Theorem WithDht_never_dials_the_host env nodes proto prefix staked :
  existsb (reaches (host_ID env))
    (thread_events (m_threads (snd (WithDht env nodes proto prefix staked start)))) = false.
Proof.
  destruct (WithDht_cases env nodes proto prefix staked)
    as [(e & _ & ->) | [(e & _ & _ & ->) | (_ & _ & st & Heff & Hrun)]];
    [reflexivity | reflexivity |].
  destruct Heff as (es & infos & _ & Hth & _ & _ & Hself). cbn in Hth.
  assert (m_threads (snd (WithDht env nodes proto prefix staked start)) = m_threads st) as ->.
  { destruct Hrun as [[r ->] | ->]; reflexivity. }
  rewrite Hth. apply threads_reach_only_their_peers, Hself.
Qed.

(** X5.  The wait group of [WithDht] is balanced: the caller's trace holds
    one [wg.Add(1)] per goroutine started, every goroutine signals
    [wg.Done()] exactly once, and when [WithDht] returns a DHT its
    [wg.Wait()] comes after all of the [wg.Add(1)]. *)
Theorem wait_group_is_balanced env nodes proto prefix staked :
  let run := WithDht env nodes proto prefix staked start in
  length (List.filter is_WgAdd (m_trace (snd run))) = length (m_threads (snd run))
  /\ forallb (fun t => (length (List.filter is_WgDone (th_trace t)) =? 1)%nat)
       (m_threads (snd run)) = true
  /\ (forall d err, fst run = Returned (Some d, err) ->
      exists pre post,
        m_trace (snd run) = pre ++ WgWait :: post
        /\ length (List.filter is_WgAdd pre) = length (m_threads (snd run))
        /\ existsb is_WgAdd post = false).
Proof.
  cbv zeta.
  destruct (WithDht_cases env nodes proto prefix staked)
    as [(e & _ & ->) | [(e & _ & _ & ->) | (_ & _ & st & Heff & Hrun)]].
  - cbn. repeat split. intros d err [=].
  - cbn. repeat split. intros d err [=].
  - destruct Heff as (es & infos & Htr & Hth & _ & Hadd & _). cbn in Htr, Hth.
    assert (length (List.filter is_WgAdd (m_trace st)) = length (m_threads st)) as Hbal.
    { rewrite Htr, Hth, length_map. cbn. exact Hadd. }
    destruct Hrun as [[r ->] | ->]; cbn [fst snd m_trace m_threads].
    + split; [exact Hbal|]. split; [rewrite Hth; apply threads_signal_once|].
      intros d err [=].
    + split; [|split; [rewrite Hth; apply threads_signal_once|]].
      * rewrite List.filter_app, length_app, Hbal.
        destruct (_ && _); cbn; lia.
      * intros d err _. eexists (m_trace st), _. split; [reflexivity|].
        split; [exact Hbal|]. destruct (_ && _); reflexivity.
Qed.

(** X6.  [WithDht] returns a non-nil error exactly when [dht.New] or
    [Bootstrap] failed, and then the DHT it returns is nil; what happens to
    the bootstrap peers never makes it return an error.  A nil error always
    comes with a DHT. *)
Theorem WithDht_error_is_a_construction_error env nodes proto prefix staked d e :
  (fst (WithDht env nodes proto prefix staked start) = Returned (d, Some e) <->
     d = None
     /\ (dht_New env = Some e \/ (dht_New env = None /\ dht_Bootstrap env = Some e)))
  /\ fst (WithDht env nodes proto prefix staked start) <> Returned (None, None).
Proof.
  destruct (WithDht_cases env nodes proto prefix staked)
    as [(e' & Hn & ->) | [(e' & Hn & Hb & ->) | (Hn & Hb & st & _ & Hrun)]];
    cbn [fst].
  - split; [|discriminate]. split.
    + intros [= <- <-]. split; [reflexivity | left; exact Hn].
    + intros [-> [H | [H _]]]; congruence.
  - split; [|discriminate]. split.
    + intros [= <- <-]. split; [reflexivity | right; split; assumption].
    + intros [-> [H | [_ H]]]; congruence.
  - destruct Hrun as [[r ->] | ->]; cbn [fst]; (split; [|discriminate]); split;
      try discriminate; intros [_ [H | [_ H]]]; congruence.
Qed.

Lemma attempt_ignores_TryAddPeer f env proto staked info counter :
  attempt (withTryAddPeer f env) proto staked info counter =
  attempt env proto staked info counter.
Proof. reflexivity. Qed.

Lemma bootstrapOne_ignores_TryAddPeer f env proto staked a st st' :
  m_threads st' = m_threads st ->
  fst (bootstrapOne (withTryAddPeer f env) proto staked a st') =
    fst (bootstrapOne env proto staked a st)
  /\ m_threads (snd (bootstrapOne (withTryAddPeer f env) proto staked a st')) =
     m_threads (snd (bootstrapOne env proto staked a st)).
Proof.
  intros Hth. BootstrapProps.run_main. rewrite Hth.
  destruct (AddrInfoFromP2pAddr env a) as [[info|] [e|]]; cbn;
    try (destruct (String.eqb (ID info) (host_ID env)); cbn);
    try (destruct (rt_TryAddPeer env (ID info)) as [[|] [e1|]]; cbn);
    try (destruct (f (ID info)) as [[|] [e2|]]; cbn);
    split; reflexivity.
Qed.

Lemma bootstrapAll_ignores_TryAddPeer f env proto staked nodes : forall st st',
  m_threads st' = m_threads st ->
  fst (bootstrapAll (withTryAddPeer f env) proto staked nodes st') =
    fst (bootstrapAll env proto staked nodes st)
  /\ m_threads (snd (bootstrapAll (withTryAddPeer f env) proto staked nodes st')) =
     m_threads (snd (bootstrapAll env proto staked nodes st)).
Proof.
  induction nodes as [|a rest IH]; intros st st' Hth; cbn [bootstrapAll].
  - split; [reflexivity | exact Hth].
  - unfold mbindM.
    destruct (bootstrapOne_ignores_TryAddPeer f env proto staked a st st' Hth) as [Hr Ht].
    destruct (bootstrapOne (withTryAddPeer f env) proto staked a st') as [o' s'].
    destruct (bootstrapOne env proto staked a st) as [o s0].
    cbn [fst snd] in *. subst o'.
    destruct o as [[]|r]; [apply IH; exact Ht | split; [reflexivity | exact Ht]].
Qed.

(** X7.  Registering a bootstrap peer with the routing table is best effort:
    whatever [TryAddPeer] answers, [WithDht] ends the same way and starts the
    same goroutines, which do the same. *)
Theorem registration_outcome_is_ignored f env nodes proto prefix staked :
  fst (WithDht (withTryAddPeer f env) nodes proto prefix staked start) =
    fst (WithDht env nodes proto prefix staked start)
  /\ m_threads (snd (WithDht (withTryAddPeer f env) nodes proto prefix staked start)) =
     m_threads (snd (WithDht env nodes proto prefix staked start)).
Proof.
  unfold WithDht, mbindM, emitM, mret, peerConnectionCount.
  cbn [withTryAddPeer dht_New dht_Bootstrap].
  destruct (dht_New env); [split; reflexivity|].
  destruct (dht_Bootstrap env); [split; reflexivity|].
  match goal with
  | |- context [bootstrapAll env ?p ?s ?n ?st] =>
      destruct (bootstrapAll_ignores_TryAddPeer f env p s n st st eq_refl) as [Hr Ht];
      destruct (bootstrapAll (withTryAddPeer f env) p s n st) as [o' s'];
      destruct (bootstrapAll env p s n st) as [o s0]
  end.
  cbn [fst snd] in *. subst o'.
  destruct o as [[]|r]; cbn [fst snd m_threads]; [|split; [reflexivity | exact Ht]].
  rewrite Ht.
  destruct (_ && _); cbn [fst snd m_threads]; split; reflexivity.
Qed.

(** X8.  When [WithDht] returns a DHT, it has printed the warning that no
    boot node could be reached exactly when the bootstrap list is not empty
    and no goroutine opened a handshake stream. *)
Theorem warning_means_no_stream_was_opened env nodes proto prefix staked d err :
  fst (WithDht env nodes proto prefix staked start) = Returned (Some d, err) ->
  (In soft_warning (m_trace (snd (WithDht env nodes proto prefix staked start))) <->
   nodes <> []
   /\ existsb is_stream_opened
        (thread_events (m_threads (snd (WithDht env nodes proto prefix staked start))))
      = false).
Proof.
  destruct (WithDht_cases env nodes proto prefix staked)
    as [(e & _ & ->) | [(e & _ & _ & ->) | (_ & _ & st & Heff & Hrun)]];
    [discriminate | discriminate |].
  destruct Hrun as [[r ->] | ->]; [discriminate|]. intros _.
  destruct Heff as (es & infos & Htr & Hth & Hloop & _ & _). cbn in Htr, Hth.
  cbn [fst snd m_trace m_threads].
  rewrite Hth, threads_count_opened.
  set (opened := List.filter is_stream_opened _).
  assert (existsb is_stream_opened
            (thread_events (map (fun info => attempt env proto staked info 0) infos)) = false
          <-> length opened = 0%nat) as Hop.
  { subst opened. generalize (thread_events (map (fun info => attempt env proto staked info 0) infos)).
    intros l. induction l as [|x l IH]; cbn; [tauto|].
    destruct (is_stream_opened x); cbn; [split; discriminate | exact IH]. }
  rewrite Hop, Htr.
  split.
  - intros Hin. apply in_app_or in Hin as [Hin | Hin].
    + exfalso. cbn in Hin.
      destruct Hin as [H | [H | [H | Hin]]]; try discriminate H.
      exact (loop_events_have_no_wait es Hloop Hin).
    + destruct Hin as [H | Hin]; [discriminate H|].
      destruct nodes as [|a rest]; cbn in Hin; [destruct Hin|].
      destruct (length opened) as [|n]; cbn in Hin; [|destruct Hin].
      split; [discriminate | reflexivity].
  - intros [Hne Hz]. rewrite Hz. apply in_or_app. right. right.
    destruct nodes as [|a rest]; [congruence|]. left. reflexivity.
Qed.

Lemma bootstrapOne_nil_panics env proto staked a st :
  resolves env a = false ->
  exists r, fst (bootstrapOne env proto staked a st) = Panicked r.
Proof.
  unfold resolves. BootstrapProps.run_main.
  destruct (AddrInfoFromP2pAddr env a) as [[info|] [e|]]; cbn;
    try discriminate; intros _; eexists; reflexivity.
Qed.

Lemma bootstrapAll_returned_resolves env proto staked nodes : forall st,
  fst (bootstrapAll env proto staked nodes st) = Returned tt ->
  forallb (resolves env) nodes = true.
Proof.
  induction nodes as [|a rest IH]; intros st; cbn [bootstrapAll forallb];
    [reflexivity|].
  unfold mbindM.
  destruct (resolves env a) eqn:Ha.
  - destruct (bootstrapOne env proto staked a st) as [[[]|r] st1]; cbn [fst];
      [apply IH | discriminate].
  - destruct (bootstrapOne_nil_panics env proto staked a st Ha) as [r Hr].
    destruct (bootstrapOne env proto staked a st) as [o st1]; cbn [fst] in *.
    subst o. discriminate.
Qed.

(** X1.  When [WithDht] returns a DHT, the error it returns is nil, every
    address of the bootstrap list resolved to a peer, and it has started
    exactly one goroutine for each address that resolves to a peer other than
    the host itself, in the order of the list, whatever became of the other
    attempts. *)
Theorem WithDht_starts_one_goroutine_per_dialled_peer env nodes proto prefix staked d err :
  fst (WithDht env nodes proto prefix staked start) = Returned (Some d, err) ->
  err = None
  /\ forallb (resolves env) nodes = true
  /\ m_threads (snd (WithDht env nodes proto prefix staked start)) =
       map (fun info => attempt env proto staked info 0) (dialled env nodes).
Proof.
  unfold WithDht, mbindM, emitM, mret, peerConnectionCount.
  destruct (dht_New env); [discriminate|].
  destruct (dht_Bootstrap env); [discriminate|].
  match goal with
  | |- context [bootstrapAll ?e ?p ?s ?n ?st] =>
      pose proof (bootstrapAll_returned_resolves e p s n st) as Hres;
      pose proof (BootstrapProps.bootstrapAll_resolved e p s n st) as Hth;
      destruct (bootstrapAll e p s n st) as [[[]|r] st1]
  end; [|discriminate].
  specialize (Hres eq_refl). destruct (Hth Hres) as [_ Ht].
  cbn [fst snd m_threads start app] in *.
  destruct (_ && _); cbn [fst snd m_threads]; intros [= <- <-];
    (split; [reflexivity|]); (split; [exact Hres | exact Ht]).
Qed.

Lemma WithDht_starts_one_goroutine_per_dialled_peer_witness :
  (None : option error) = None
  /\ forallb (resolves (Sample.netEnv None)) [Sample.addrA; Sample.addrSelf; Sample.addrB] = true
  /\ m_threads (snd (WithDht (Sample.netEnv None) [Sample.addrA; Sample.addrSelf; Sample.addrB]
                       Sample.proto Sample.prefix false start)) =
       map (fun info => attempt (Sample.netEnv None) Sample.proto false info 0)
         (dialled (Sample.netEnv None) [Sample.addrA; Sample.addrSelf; Sample.addrB]).
Proof.
  apply (WithDht_starts_one_goroutine_per_dialled_peer (Sample.netEnv None)
           [Sample.addrA; Sample.addrSelf; Sample.addrB] Sample.proto Sample.prefix false
           {| dht_prefix := Sample.prefix; rt_PeerAdded := onPeerAdded;
              rt_PeerRemoved := onPeerRemoved |} None).
  vm_compute. reflexivity.
Defined.

Lemma resolved_addrs_app t1 t2 :
  resolved_addrs (t1 ++ t2) = resolved_addrs t1 ++ resolved_addrs t2.
Proof. unfold resolved_addrs. apply omap_app. Qed.

Lemma bootstrapOne_resolves_its_address env proto staked a st :
  resolved_addrs (m_trace (snd (bootstrapOne env proto staked a st))) =
    resolved_addrs (m_trace st) ++ [a].
Proof.
  BootstrapProps.run_main.
  destruct (AddrInfoFromP2pAddr env a) as [[info|] [e|]]; cbn;
    try (destruct (String.eqb (ID info) (host_ID env)); cbn);
    try (destruct (rt_TryAddPeer env (ID info)) as [[|] [e'|]]; cbn);
    rewrite ?resolved_addrs_app; cbn; rewrite <- ?app_assoc; reflexivity.
Qed.

Lemma bootstrapAll_resolves_in_order env proto staked nodes : forall st,
  fst (bootstrapAll env proto staked nodes st) = Returned tt ->
  resolved_addrs (m_trace (snd (bootstrapAll env proto staked nodes st))) =
    resolved_addrs (m_trace st) ++ nodes.
Proof.
  induction nodes as [|a rest IH]; intros st; cbn [bootstrapAll].
  - intros _. cbn. rewrite app_nil_r. reflexivity.
  - unfold mbindM.
    pose proof (bootstrapOne_resolves_its_address env proto staked a st) as H1.
    destruct (bootstrapOne env proto staked a st) as [[[]|r] st1]; cbn [fst snd] in *;
      [|discriminate].
    intros Hret. rewrite (IH st1 Hret), H1, <- app_assoc. reflexivity.
Qed.

(** X20.  When [WithDht] returns a DHT, it has resolved every address of the
    bootstrap list exactly once, in the order of the list. *)
Theorem WithDht_resolves_each_address_once env nodes proto prefix staked d err :
  fst (WithDht env nodes proto prefix staked start) = Returned (Some d, err) ->
  resolved_addrs (m_trace (snd (WithDht env nodes proto prefix staked start))) = nodes.
Proof.
  unfold WithDht, mbindM, emitM, mret, peerConnectionCount.
  destruct (dht_New env); [discriminate|].
  destruct (dht_Bootstrap env); [discriminate|].
  match goal with
  | |- context [bootstrapAll ?e ?p ?s ?n ?st] =>
      pose proof (bootstrapAll_resolves_in_order e p s n st) as Hres;
      destruct (bootstrapAll e p s n st) as [[[]|r] st1]
  end; [|discriminate].
  specialize (Hres eq_refl). cbn [fst snd m_trace] in *. intros _.
  destruct (_ && _); cbn [fst snd m_trace];
    rewrite ?resolved_addrs_app, Hres; cbn; rewrite ?app_nil_r; reflexivity.
Qed.

Lemma WithDht_resolves_each_address_once_witness :
  resolved_addrs
    (m_trace (snd (WithDht (Sample.netEnv None) [Sample.addrSelf; Sample.addrB; Sample.addrA]
                     Sample.proto Sample.prefix true start))) =
    [Sample.addrSelf; Sample.addrB; Sample.addrA].
Proof.
  apply (WithDht_resolves_each_address_once (Sample.netEnv None)
           [Sample.addrSelf; Sample.addrB; Sample.addrA] Sample.proto Sample.prefix true
           {| dht_prefix := Sample.prefix; rt_PeerAdded := onPeerAdded;
              rt_PeerRemoved := onPeerRemoved |} None).
  vm_compute. reflexivity.
Defined.

Lemma warning_means_no_stream_was_opened_witness :
  let run := WithDht (Sample.netEnv None) [Sample.addrA; Sample.addrB]
               Sample.proto Sample.prefix true start in
  In soft_warning (m_trace (snd run)) <->
  [Sample.addrA; Sample.addrB] <> []
  /\ existsb is_stream_opened (thread_events (m_threads (snd run))) = false.
Proof.
  apply (warning_means_no_stream_was_opened (Sample.netEnv None)
           [Sample.addrA; Sample.addrB] Sample.proto Sample.prefix true
           {| dht_prefix := Sample.prefix; rt_PeerAdded := onPeerAdded;
              rt_PeerRemoved := onPeerRemoved |} None).
  vm_compute. reflexivity.
Defined.

End ConnectorFacts.

(** * Properties of the routing table monitor *)
Module MonitorFacts.
Import Monitor.

Lemma loop_returns schedule :
  snd (loop schedule) = MonReturned <-> In CtxDone schedule.
Proof.
  induction schedule as [|[size peers|] rest IH]; cbn.
  - split; [discriminate | tauto].
  - destruct (loop rest) as [t r]; cbn in *. rewrite IH.
    split; [tauto | intros [H|H]; [discriminate | exact H]].
  - split; auto.
Qed.

Lemma loop_never_panics schedule : snd (loop schedule) <> MonPanicked.
Proof.
  induction schedule as [|[size peers|] rest IH]; cbn; try discriminate.
  destruct (loop rest) as [t r]; exact IH.
Qed.

Lemma loop_logs schedule :
  fst (loop schedule) =
    flat_map
      (fun s : Z * list PeerID =>
         Out (Log LInfo "Routing table size: %d" [AStr (itoa (fst s))])
         :: map (fun p => Out (Log LDebug "Peer in routing table: %s" [AStr (ID_String p)]))
              (snd s))
      (samples schedule).
Proof.
  induction schedule as [|[size peers|] rest IH]; cbn [loop samples flat_map fst snd];
    try reflexivity.
  destruct (loop rest) as [t r]; cbn [fst] in *. rewrite IH. reflexivity.
Qed.

(** X9.  With a positive interval the routing table monitor never panics.
    It returns exactly when a [select] takes the [ctx.Done()] case, and then
    stopping the ticker is the last thing it does; while it waits the ticker
    is not stopped.  After creating the ticker with the given interval it
    writes, for every tick before that and in the order of the ticks, the
    info line "Routing table size: %d" with the size the routing table then
    reports, followed by one debug line "Peer in routing table: %s" for each
    peer the routing table then lists, in the order of that list, and it
    writes nothing else. *)
Theorem monitor_logs_samples_and_stops_cleanly interval schedule :
  0 < interval ->
  let run := monitorRoutingTable interval schedule in
  (snd run = MonReturned <-> In CtxDone schedule)
  /\ snd run <> MonPanicked
  /\ fst run =
       NewTicker interval
       :: flat_map
            (fun s : Z * list PeerID =>
               Out (Log LInfo "Routing table size: %d" [AStr (itoa (fst s))])
               :: map (fun p => Out (Log LDebug "Peer in routing table: %s"
                                       [AStr (ID_String p)]))
                    (snd s))
            (samples schedule)
       ++ (if existsb (fun s => match s with CtxDone => true | _ => false end) schedule
           then [TickerStop] else []).
Proof.
  intros Hpos. unfold monitorRoutingTable.
  destruct (interval <=? 0) eqn:Hle; [apply Z.leb_le in Hle; lia|].
  pose proof (loop_returns schedule) as Hret.
  pose proof (loop_never_panics schedule) as Hnp.
  pose proof (loop_logs schedule) as Hlogs.
  assert (existsb (fun s => match s with CtxDone => true | _ => false end) schedule = true
          <-> In CtxDone schedule) as Hex.
  { rewrite existsb_exists. split.
    - intros ([size peers|] & Hin & Hx); [discriminate | exact Hin].
    - intros Hin. exists CtxDone. split; [exact Hin | reflexivity]. }
  destruct (loop schedule) as [t r]; cbn [fst snd] in *.
  split; [exact Hret|]. split; [exact Hnp|].
  rewrite <- Hlogs.
  destruct r.
  - congruence.
  - rewrite (proj2 Hex (proj1 Hret eq_refl)). reflexivity.
  - destruct (existsb _ schedule) eqn:Hx; [|reflexivity].
    discriminate (proj2 Hret (proj1 Hex eq_refl)).
Qed.

Lemma monitor_logs_samples_and_stops_cleanly_witness :
  let run := monitorRoutingTable Minute
               [Tick 2 ["QmA"; "QmB"]; Tick 1 ["QmB"]; CtxDone; Tick 0 []] in
  (snd run = MonReturned <-> In CtxDone [Tick 2 ["QmA"; "QmB"]; Tick 1 ["QmB"]; CtxDone; Tick 0 []])
  /\ snd run <> MonPanicked
  /\ fst run =
       [NewTicker Minute;
        Out (Log LInfo "Routing table size: %d" [AStr "2"]);
        Out (Log LDebug "Peer in routing table: %s" [AStr "QmA"]);
        Out (Log LDebug "Peer in routing table: %s" [AStr "QmB"]);
        Out (Log LInfo "Routing table size: %d" [AStr "1"]);
        Out (Log LDebug "Peer in routing table: %s" [AStr "QmB"]);
        TickerStop].
Proof.
  apply (monitor_logs_samples_and_stops_cleanly Minute
           [Tick 2 ["QmA"; "QmB"]; Tick 1 ["QmB"]; CtxDone; Tick 0 []]).
  reflexivity.
Defined.

End MonitorFacts.

(** * Further properties of the node *)
Module NodeFacts.
Import Masa Observe.

(** *** Relations that steps keep *)

Section Keeps.
Variable R : World -> World -> Prop.
Hypothesis R_refl : forall w, R w w.
Hypothesis R_trans : forall w1 w2 w3, R w1 w2 -> R w2 w3 -> R w1 w3.

Lemma keeps_sret {A} (a : A) : keeps R (sret a).
Proof. intros w. apply R_refl. Qed.

Lemma keeps_sbind {A B} (m : W A) (k : A -> W B) :
  keeps R m -> (forall a, keeps R (k a)) -> keeps R (sbind m k).
Proof.
  intros Hm Hk w. unfold sbind. specialize (Hm w).
  destruct (m w) as [a w1]; cbn in *. eapply R_trans; [exact Hm | apply Hk].
Qed.

End Keeps.

Lemma extends_refl w : extends w w.
Proof. exists []. rewrite app_nil_r. reflexivity. Qed.

Lemma extends_trans w1 w2 w3 : extends w1 w2 -> extends w2 w3 -> extends w1 w3.
Proof.
  intros [n1 H1] [n2 H2]. exists (n1 ++ n2). rewrite H2, H1, app_assoc. reflexivity.
Qed.

Lemma same_identity_refl w : same_identity w w.
Proof. repeat split. Qed.

Lemma same_identity_trans w1 w2 w3 :
  same_identity w1 w2 -> same_identity w2 w3 -> same_identity w1 w3.
Proof. unfold same_identity. intros (A & B & C & D) (E & F & G & H). repeat split; congruence. Qed.

(** A step that is a single state change. *)
Ltac keeps_leaf :=
  unfold keeps, extends, same_identity;
  intros ?w; cbn;
  first [ solve [repeat split]
        | solve [exists []; rewrite app_nil_r; reflexivity]
        | solve [eexists; reflexivity] ].

(** Takes a step apart along its binds and case distinctions. *)
Ltac keeps_steps Hrefl Htrans :=
  repeat first
    [ progress cbv zeta
    | apply (keeps_sbind _ Htrans); [|intros ?]
    | apply (keeps_sret _ Hrefl)
    | match goal with
      | |- keeps _ (match ?x with _ => _ end) => destruct x
      end
    | progress unfold GetNodeData, JoinedAt, LeftAt, HandleNodeData, AddOrUpdateNodeData,
        GetMultiAddrs, withDht, connect, closePeer, onPeerEvent
    | solve [keeps_leaf] ].

(** *** [GetMultiAddrs] *)

(** X10.  [GetMultiAddrs] is idempotent: a second call returns the address
    of the first and changes nothing.  A call writes nothing but the node's
    [priorityAddrs], which then holds the address returned. *)
Theorem GetMultiAddrs_is_idempotent env w :
  let a := fst (GetMultiAddrs env w) in
  let w1 := snd (GetMultiAddrs env w) in
  GetMultiAddrs env w1 = (a, w1)
  /\ priorityAddrs (w_node w1) = Some a
  /\ same_identity w w1
  /\ DHT (w_node w1) = DHT (w_node w)
  /\ StartTime (w_node w1) = StartTime (w_node w)
  /\ w_trace w1 = w_trace w
  /\ w_tracker w1 = w_tracker w
  /\ w_handlers w1 = w_handlers w.
Proof.
  unfold GetMultiAddrs, sbind, getNode, setNode, sret, same_identity.
  destruct (priorityAddrs (w_node w)) as [a|] eqn:Hp; cbn.
  - rewrite Hp. repeat split.
  - repeat split.
Qed.

(** *** [Start] *)

Lemma Start_keeps_extends env : keeps extends (Start env).
Proof. unfold Start. keeps_steps extends_refl extends_trans. Qed.

Lemma Start_keeps_identity env : keeps same_identity (Start env).
Proof. unfold Start. keeps_steps same_identity_refl same_identity_trans. Qed.

#[local] Arguments Network.WithDht : simpl never.

Ltac run_start :=
  unfold Start, withDht, GetMultiAddrs, GetNodeData, JoinedAt, HandleNodeData,
    sbind, sret, getNode, setNode, emitW, emitAll, addThreads, setStreamHandler,
    getTracker, setTracker.

(** X11.  [Start] returns the first error it meets, in this order: reading
    the boot node addresses, [WithDht], [WithMDNS], [SubscribeToTopics]; a
    panic of [WithDht] is a panic of [Start].  The bookkeeping in the node
    tracker never makes it fail.  [StartTime] is set exactly when [Start]
    returns a nil error. *)
Theorem Start_returns_the_first_error env w :
  fst (Start env w) =
    match GetBootNodesMultiAddress env with
    | inr e => Returned (Some e)
    | inl nodes =>
        match fst (Network.WithDht (net env) nodes (Protocol (w_node w)) (MasaPrefix env)
                     (IsStaked (w_node w)) Network.start) with
        | Panicked r => Panicked r
        | Returned (_, Some e) => Returned (Some e)
        | Returned (_, None) =>
            match WithMDNS env with
            | Some e => Returned (Some e)
            | None =>
                match SubscribeToTopics env with
                | Some e => Returned (Some e)
                | None => Returned None
                end
            end
        end
    end
  /\ StartTime (w_node (snd (Start env w))) =
       match fst (Start env w) with
       | Returned None => time_Now env
       | _ => StartTime (w_node w)
       end.
Proof.
  run_start.
  destruct (priorityAddrs (w_node w)) eqn:Hp; cbn;
    (destruct (GetBootNodesMultiAddress env) as [nodes|e]; cbn; [|split; reflexivity]);
    destruct (IsStaked (w_node w)); cbn;
    (match goal with
     | |- context [Network.WithDht ?a1 ?a2 ?a3 ?a4 ?a5 ?a6] =>
         destruct (Network.WithDht a1 a2 a3 a4 a5 a6) as [[[dht [err|]]|r] st]
     end; cbn; [split; reflexivity | | split; reflexivity]);
    (destruct (WithMDNS env); cbn; [split; reflexivity|]);
    destruct (HasBootnodes env); cbn;
    repeat match goal with
      | |- context [match ?x !! ?k with _ => _ end] => destruct (x !! k); cbn
      end;
    rewrite ?Hp; cbn;
    destruct (SubscribeToTopics env); cbn; split; reflexivity.
Qed.

Lemma WithDht_trace_head env nodes proto prefix staked :
  exists tl,
    Network.m_trace (snd (Network.WithDht env nodes proto prefix staked Network.start)) =
      Call_dhtNew (Network.dht_New env) :: tl.
Proof.
  destruct (ConnectorFacts.WithDht_cases env nodes proto prefix staked)
    as [(e & -> & ->) | [(e & -> & _ & ->) | (-> & _ & st & Heff & Hrun)]];
    [eexists; reflexivity | eexists; reflexivity |].
  destruct Heff as (es & infos & Htr & _). cbn in Htr.
  destruct Hrun as [[r ->] | ->]; cbn [snd Network.m_trace]; rewrite Htr;
    eexists; reflexivity.
Qed.

(** X12.  Once it has read the boot node addresses, [Start] installs its
    stream handlers before anything else: before the node tracker is
    subscribed to the network, before the dispatcher is started, and before
    [WithDht] builds the DHT and dials the first bootstrap peer. *)
Theorem Start_installs_handlers_first env w nodes :
  GetBootNodesMultiAddress env = inl nodes ->
  exists rest,
    w_trace (snd (Start env w)) =
      w_trace w
      ++ [Log LInfo "Starting node with ID: %s" [AStr (fst (GetMultiAddrs env w))];
          Call_GetBootNodesMultiAddress (inl nodes);
          SetStreamHandler (Protocol (w_node w)) H_handleStream;
          SetStreamHandler (ProtocolWithVersion env (NodeDataSyncProtocol env))
            H_ReceiveNodeData]
      ++ (if IsStaked (w_node w)
          then [SetStreamHandler (ProtocolWithVersion env (NodeGossipTopic env))
                  H_GossipNodeData]
          else [])
      ++ [NetworkNotifyTracker; GoListenToNodeTracker; GoHandleDiscoveredPeers;
          Call_dhtNew (Network.dht_New (net env))]
      ++ rest.
Proof.
  intros Hboot. run_start. rewrite Hboot.
  destruct (priorityAddrs (w_node w)) eqn:Hp; cbn;
    destruct (IsStaked (w_node w)); cbn;
    (match goal with
     | |- context [Network.WithDht ?a1 ?a2 ?a3 ?a4 ?a5 ?a6] =>
         destruct (WithDht_trace_head a1 a2 a3 a4 a5) as [tl Hhd];
         destruct (Network.WithDht a1 a2 a3 a4 a5 a6) as [[[dht [err|]]|r] st]
     end; cbn in Hhd; cbn; rewrite ?Hhd);
    try (destruct (WithMDNS env); cbn);
    try (destruct (HasBootnodes env); cbn);
    repeat match goal with
      | |- context [match ?x !! ?k with _ => _ end] => destruct (x !! k); cbn
      end;
    rewrite ?Hp; cbn;
    try (destruct (SubscribeToTopics env); cbn);
    rewrite <- ?app_assoc; cbn; eexists; reflexivity.
Qed.

Lemma Start_installs_handlers_first_witness :
  let env := Sample.nodeEnv (inl [Sample.addrB]) in
  let w := Sample.world0 true ∅ in
  exists rest,
    w_trace (snd (Start env w)) =
      [Log LInfo "Starting node with ID: %s" [AStr "/ip4/127.0.0.1/tcp/4001/p2p/QmSelf"];
       Call_GetBootNodesMultiAddress (inl [Sample.addrB]);
       SetStreamHandler Sample.proto H_handleStream;
       SetStreamHandler "/masa/nodeDataSync/v0.0.1" H_ReceiveNodeData;
       SetStreamHandler "/masa/gossip/v0.0.1" H_GossipNodeData;
       NetworkNotifyTracker; GoListenToNodeTracker; GoHandleDiscoveredPeers;
       Call_dhtNew None]
      ++ rest.
Proof.
  apply (Start_installs_handlers_first (Sample.nodeEnv (inl [Sample.addrB]))
           (Sample.world0 true ∅) [Sample.addrB]).
  reflexivity.
Defined.



(** A staked node with boot nodes and an empty Tracker: the three calls, the
    record being the node's own. *)
Example Start_tracker_calls_of_a_fresh_node :
  List.filter is_tracker_call
    (w_trace (snd (Start (Sample.nodeEnv (inl [Sample.addrB])) (Sample.world0 true ∅)))) =
    [Call_GetNodeData "QmSelf" false; Call_Joined "QmSelf";
     Call_HandleNodeData
       {| Pubsub.PeerId := "QmSelf"; Pubsub.EthAddress := "0x5e1f";
          Pubsub.Multiaddrs := "/ip4/127.0.0.1/tcp/4001/p2p/QmSelf";
          Pubsub.IsStaked := true; Pubsub.SelfIdentified := true;
          Pubsub.Activity := Pubsub.ActivityJoined;
          Pubsub.LastJoined := 1700000000; Pubsub.LastLeft := 0;
          Pubsub.LastUpdated := 1700000000 |}].
Proof. vm_compute. reflexivity. Qed.

(** *** [handleDiscoveredPeers] *)

Lemma connected_app t1 t2 : connected (t1 ++ t2) = connected t1 ++ connected t2.
Proof. unfold connected. apply omap_app. Qed.

Lemma closed_app t1 t2 : closed (t1 ++ t2) = closed t1 ++ closed t2.
Proof. unfold closed. apply omap_app. Qed.

Lemma refused_app env t1 t2 : forall before,
  refused env before (t1 ++ t2) = refused env before t1 ++ refused env (before ++ t1) t2.
Proof.
  induction t1 as [|e t1 IH]; intros before; cbn [refused app].
  - rewrite app_nil_r. reflexivity.
  - rewrite IH, <- !app_assoc. reflexivity.
Qed.

Lemma onPeerEvent_calls env peer w :
  exists new,
    w_trace (snd (onPeerEvent env peer w)) = w_trace w ++ new
    /\ connected new =
         (if String.eqb (Action peer) Network.PeerAdded then [PE_AddrInfo peer] else [])
    /\ closed new = refused env (w_trace w) new.
Proof.
  destruct (String.eqb (Action peer) Network.PeerAdded) eqn:Ha.
  - apply String.eqb_eq in Ha. rewrite (NodeProps.onPeerEvent_added env peer w Ha).
    cbv zeta. eexists. split; [reflexivity|].
    cbn [refused connected closed omap app].
    destruct (host_Connect env _ (PE_AddrInfo peer)) as [e|] eqn:Hc; cbn.
    + rewrite ?Hc. destruct (network_ClosePeer env _ (ID (PE_AddrInfo peer))); cbn;
        rewrite ?Hc; split; reflexivity.
    + rewrite ?Hc. split; reflexivity.
  - apply String.eqb_neq in Ha. rewrite (NodeProps.onPeerEvent_other env peer w Ha).
    eexists. split; [reflexivity|]. split; reflexivity.
Qed.

(** X14.  The dispatcher calls [Connect] once for every [PeerAdded] event it
    receives before the context is done, with the address information of that
    event and in the order of the events, and for no other event.  It calls
    [ClosePeer] exactly for the peers whose [Connect] the host answered with
    an error, in that same order, and for no other peer. *)
Theorem dispatcher_connects_once_per_added_peer env schedule : forall w,
  exists new,
    w_trace (snd (handleDiscoveredPeers env schedule w)) = w_trace w ++ new
    /\ connected new = added_peers schedule
    /\ closed new = refused env (w_trace w) new.
Proof.
  induction schedule as [|[peer|] rest IH]; intros w;
    cbn [handleDiscoveredPeers added_peers].
  - exists []. cbn. rewrite app_nil_r. repeat split.
  - unfold sbind.
    destruct (onPeerEvent_calls env peer w) as (n1 & Ht1 & Hc1 & Hr1).
    destruct (onPeerEvent env peer w) as [[] w1]; cbn [snd] in *.
    destruct (IH w1) as (n2 & Ht2 & Hc2 & Hr2).
    exists (n1 ++ n2). rewrite Ht2, Ht1, <- app_assoc.
    split; [reflexivity|].
    rewrite connected_app, closed_app, refused_app, Hc1, Hc2, Hr1, Hr2, Ht1.
    split; reflexivity.
  - exists []. cbn. rewrite app_nil_r. repeat split.
Qed.

(** Peer A cannot be reached, peer B can; the event after the context is
    done is not served. *)
Example dispatcher_serves_added_peers_in_order :
  let w' := snd (handleDiscoveredPeers (Sample.nodeEnv (inl []))
                   [RecvPeer Sample.peerAddedA; RecvPeer Sample.peerRemovedA;
                    RecvPeer Sample.peerAddedB; CtxDone; RecvPeer Sample.peerAddedA]
                   (Sample.world0 true ∅)) in
  connected (w_trace w') = [Sample.infoA; Sample.infoB]
  /\ closed (w_trace w') = ["QmA"].
Proof. vm_compute. split; reflexivity. Qed.

(** *** [handleStream] *)

(** X19.  Of an inbound payload [handleStream] uses the peer id, the chain
    address and the staked flag, and nothing else: two payloads that agree
    on these three lead to the same log and the same Tracker, whatever
    address, activity, self-identified flag or timestamps they carry. *)
Theorem handleStream_reads_three_fields env stream w remotePeer nodeData nodeData' :
  handleStreamData env stream (w_tracker w) = (remotePeer, nodeData, None) ->
  Pubsub.PeerId nodeData' = Pubsub.PeerId nodeData ->
  Pubsub.EthAddress nodeData' = Pubsub.EthAddress nodeData ->
  Pubsub.IsStaked nodeData' = Pubsub.IsStaked nodeData ->
  handleStream (withStreamData (fun _ _ => (remotePeer, nodeData', None)) env) stream w =
  handleStream env stream w.
Proof.
  intros Hread Hp He Hs.
  unfold handleStream, AddOrUpdateNodeData, sbind, sret, getTracker, setTracker, emitW.
  cbn [withStreamData handleStreamData time_Now].
  rewrite Hread, Hp, He, Hs. reflexivity.
Qed.

Lemma handleStream_reads_three_fields_witness :
  handleStream
    (withStreamData (fun _ _ => ("QmB", Sample2.payloadB', None)) (Sample.nodeEnv (inl [])))
    Sample.streamB (Sample.world0 true ∅) =
  handleStream (Sample.nodeEnv (inl [])) Sample.streamB (Sample.world0 true ∅).
Proof.
  apply (handleStream_reads_three_fields (Sample.nodeEnv (inl [])) Sample.streamB
           (Sample.world0 true ∅) "QmB" Sample.payloadB Sample2.payloadB');
    reflexivity.
Defined.

(** *** [NewOracleNode] and [IsPublisher] *)

(** X16.  A node that [NewOracleNode] returns was built with all three of
    the resource manager, the host and the pubsub manager.  It is not a
    publisher and carries the staked flag it was built with, and [Start]
    changes neither of the two, nor the node's protocol, however it ends. *)
Theorem a_started_node_keeps_its_stake_and_is_no_publisher cfg benv isStaked node :
  Node.NewOracleNode cfg benv isStaked = inl node ->
  (Node.NewResourceManager benv = None
   /\ Node.libp2p_New benv (Node.libp2pOptions cfg) = None
   /\ Node.NewPubSubManager benv = None)
  /\ forall env w,
       w_node w = node ->
       let node' := w_node (snd (Start env w)) in
       Node.IsPublisher node' = false
       /\ IsStaked node' = isStaked
       /\ Protocol node' = Node.OracleProtocolWithVersion benv.
Proof.
  unfold Node.NewOracleNode.
  destruct (Node.NewResourceManager benv); [discriminate|].
  destruct (Node.libp2p_New benv _); [discriminate|].
  destruct (Node.NewPubSubManager benv); [discriminate|].
  intros [= <-]. split; [repeat split|].
  intros env w Hw. cbv zeta.
  destruct (Start_keeps_identity env w) as (HP & _ & HS & HK).
  unfold Node.IsPublisher. rewrite HS, HK, HP, Hw. repeat split.
Qed.

Lemma a_started_node_keeps_its_stake_and_is_no_publisher_witness :
  let node := {| Protocol := Sample.proto; priorityAddrs := None;
                 multiAddrs := ["/ip4/127.0.0.1/tcp/4001/p2p/QmSelf"];
                 DHT := None; Signature := ""; IsStaked := true; StartTime := 0 |} in
  (Node.NewResourceManager Sample2.buildEnv = None
   /\ Node.libp2p_New Sample2.buildEnv (Node.libp2pOptions (Sample2.config "" "")) = None
   /\ Node.NewPubSubManager Sample2.buildEnv = None)
  /\ forall env w,
       w_node w = node ->
       let node' := w_node (snd (Start env w)) in
       Node.IsPublisher node' = false
       /\ IsStaked node' = true
       /\ Protocol node' = Sample.proto.
Proof.
  apply (a_started_node_keeps_its_stake_and_is_no_publisher (Sample2.config "" "")
           Sample2.buildEnv true).
  reflexivity.
Defined.

End NodeFacts.

(** * Properties of the start-up *)
Module CmdFacts.
Import Masa Observe Cmd.

#[local] Arguments Masa.Start : simpl never.
#[local] Arguments Masa.GetMultiAddrs : simpl never.
#[local] Arguments Node.NewOracleNode : simpl never.

Lemma Start_ok_reads_boot_nodes env w :
  fst (Start env w) = Returned None ->
  exists nodes, GetBootNodesMultiAddress env = inl nodes.
Proof.
  destruct (GetBootNodesMultiAddress env) as [nodes|e] eqn:Hb; [eexists; reflexivity|].
  NodeFacts.run_start. rewrite Hb.
  destruct (priorityAddrs (w_node w)); cbn; discriminate.
Qed.



(** X18.  When [main] has come to wait for the cancellation, the node it
    runs is staked exactly as the staking check reported, also when the check
    returned an error besides; the welcome message, shown last, tells that
    same flag, and takes the writer flag from [ParseBool] with its error
    dropped; and the node has installed the gossip handler exactly when the
    flag is true. *)
Theorem reported_stake_decides_the_gossip_handler env :
  outcome (main env) = AwaitingDone ->
  let staked := fst (VerifyStakingEvent env) in
  exists w multiAddr ipAddr,
    world (main env) = Some w
    /\ IsStaked (w_node w) = staked
    /\ last (events (main env)) =
         Some (DisplayWelcomeMessage multiAddr ipAddr (KeyManager_EthAddress (nodeEnv env))
                 staked (fst (ParseBool (Node.WriterNode (cfg env)))))
    /\ hd_error (Host_Addrs env) = Some ipAddr
    /\ (In (SetStreamHandler
              (ProtocolWithVersion (nodeEnv env) (NodeGossipTopic (nodeEnv env)))
              H_GossipNodeData) (w_trace w)
        <-> staked = true).
Proof.
  unfold main, outcome, world, events.
  destruct (String.eqb (Node.StakeAmount (cfg env)) ""); cbn [negb];
    [|destruct (handleStaking env); discriminate].
  destruct (VerifyStakingEvent env) as [isStaked err]; cbn [fst snd].
  destruct (Node.NewOracleNode (cfg env) (build env) isStaked) as [node|e] eqn:Hn;
    [|discriminate].
  pose proof (NodeFacts.Start_keeps_identity (nodeEnv env) (fresh env node))
    as (_ & _ & _ & Hst).
  pose proof (Start_ok_reads_boot_nodes (nodeEnv env) (fresh env node)) as Hboot.
  assert (IsStaked node = isStaked) as Hnode.
  { revert Hn. unfold Node.NewOracleNode.
    destruct (Node.NewResourceManager _); [discriminate|].
    destruct (Node.libp2p_New _ _); [discriminate|].
    destruct (Node.NewPubSubManager _); [discriminate|].
    intros [= <-]. reflexivity. }
  destruct (Start (nodeEnv env) (fresh env node)) as [[[e|]|reason] w] eqn:HS;
    cbn [fst snd] in *; try discriminate.
  destruct (Hboot eq_refl) as [nodes Hnodes].
  pose proof (NodeProps.Start_registers (nodeEnv env) (fresh env node) nodes Hnodes)
    as (new & Htr & Hf & _).
  rewrite HS in Htr. cbn [fst snd fresh w_trace w_node app] in Htr, Hf.
  pose proof (NodeProps.GetMultiAddrs_node (nodeEnv env) w) as [_ Hst2].
  assert (w_trace (snd (GetMultiAddrs (nodeEnv env) w)) = w_trace w) as Htr2.
  { unfold GetMultiAddrs, sbind, getNode, setNode, sret.
    destruct (priorityAddrs (w_node w)); reflexivity. }
  destruct (GetMultiAddrs (nodeEnv env) w) as [a w2]; cbn [fst snd] in *.
  destruct (Host_Addrs env) as [|ip rest]; [discriminate|]. intros _.
  exists w2, a, ip. split; [reflexivity|].
  split; [rewrite Hst2, Hst; exact Hnode|].
  split.
  { cbn [fst snd]. destruct (Node.AllowedPeer (cfg env));
      rewrite last_snoc; reflexivity. }
  split; [reflexivity|].
  rewrite Htr2, Htr. rewrite Hnode in Hf.
  split.
  - intros Hin.
    assert (In (SetStreamHandler
                  (ProtocolWithVersion (nodeEnv env) (NodeGossipTopic (nodeEnv env)))
                  H_GossipNodeData) (List.filter is_SetStreamHandler new)) as Hin'
      by (apply List.filter_In; split; [exact Hin | reflexivity]).
    rewrite Hf in Hin'. destruct isStaked; [reflexivity|].
    cbn in Hin'. intuition discriminate.
  - intros ->.
    assert (In (SetStreamHandler
                  (ProtocolWithVersion (nodeEnv env) (NodeGossipTopic (nodeEnv env)))
                  H_GossipNodeData) (List.filter is_SetStreamHandler new)) as Hin'
      by (rewrite Hf; right; right; left; reflexivity).
    apply List.filter_In in Hin'. apply Hin'.
Qed.

Lemma reported_stake_decides_the_gossip_handler_witness :
  let env := Sample2.cmdEnv "" (false, Some "rpc down") in
  exists w multiAddr ipAddr,
    world (main env) = Some w
    /\ IsStaked (w_node w) = false
    /\ last (events (main env)) =
         Some (DisplayWelcomeMessage multiAddr ipAddr "0x5e1f" false true)
    /\ hd_error (Host_Addrs env) = Some ipAddr
    /\ (In (SetStreamHandler "/masa/gossip/v0.0.1" H_GossipNodeData) (w_trace w)
        <-> false = true).
Proof.
  apply (reported_stake_decides_the_gossip_handler
           (Sample2.cmdEnv "" (false, Some "rpc down"))).
  reflexivity.
Defined.

End CmdFacts.
